(** * SHARE-IT image views: a shallow embedding of [images/forms.py] and
    [images/views.py]

    The request handlers are embedded as functions over an explicit
    [World] (relational tables, media storage, the Redis instance [r]
    and the session messages), in a small state-and-exception monad.
    Framework services that the two source files only call (field
    validation of Django forms, [slugify], [requests.get]) are Section
    variables.  Calls to [logger] are not part of the model. *)

From Stdlib Require Import Ascii.
From stdpp Require Import base gmap strings list sorting pretty.

Local Open Scope Z_scope.

(** ** Python built-ins used by the source *)

Module Py.

(** [str.lower] on the ASCII range. *)
Definition lower_char (c : ascii) : ascii :=
  let n := N_of_ascii c in
  if ((65 <=? n) && (n <=? 90))%N then ascii_of_N (n + 32) else c.

Fixpoint lower (s : string) : string :=
  match s with
  | EmptyString => EmptyString
  | String c s' => String (lower_char c) (lower s')
  end.

(** Position of the last ["."]: [Some (before, after)], or [None] when
    the string holds no dot. *)
Fixpoint rpartition_dot (s : string) : option (string * string) :=
  match s with
  | EmptyString => None
  | String c s' =>
      match rpartition_dot s' with
      | Some (a, b) => Some (String c a, b)
      | None => if Ascii.eqb c "."%char then Some (EmptyString, s') else None
      end
  end.

(** [s.rsplit('.', 1)] *)
Definition rsplit_dot_1 (s : string) : list string :=
  match rpartition_dot s with
  | Some (a, b) => [a; b]
  | None => [s]
  end.

(** Dynamic values that reach [int()] and [Paginator.page]. *)
Inductive value :=
  | None_
  | Str (s : string)
  | Int (z : Z).

(** Truthiness of [request.GET.get(..)] / [request.POST.get(..)]. *)
Definition truthy (o : option string) : bool :=
  match o with
  | Some (String _ _) => true
  | _ => false
  end.

Definition of_get (o : option string) : value :=
  match o with
  | Some s => Str s
  | None => None_
  end.

Fixpoint lstrip (s : string) : string :=
  match s with
  | String c s' => if Ascii.is_space c then lstrip s' else s
  | EmptyString => EmptyString
  end.

Definition strip (s : string) : string :=
  String.rev (lstrip (String.rev (lstrip s))).

(** Decimal digits with single underscores between them, as [int()]
    reads them. [prev] tells whether the previous character was a digit. *)
Fixpoint digits (s : string) (acc : Z) (prev : bool) : option Z :=
  match s with
  | EmptyString => if prev then Some acc else None
  | String c s' =>
      match Ascii.is_nat c with
      | Some d => digits s' (10 * acc + Z.of_nat d) true
      | None =>
          if Ascii.eqb c "_"%char && prev then digits s' acc false else None
      end
  end.

Definition int_of_string (s : string) : option Z :=
  match strip s with
  | String "-" s' => Z.opp <$> digits s' 0 false
  | String "+" s' => digits s' 0 false
  | s' => digits s' 0 false
  end.

(** [int(v)]: [None] stands for the [TypeError] / [ValueError] that
    [int()] raises. Strings are read as ASCII numerals ([int_of_string]):
    Python also takes Unicode decimal digits and Unicode blanks, and
    refuses numerals beyond its digit limit. The properties that depend
    on which strings are numerals are stated over any [int()] in
    [AnyInt] at the end of the file. *)
Definition int (v : value) : option Z :=
  match v with
  | None_ => None
  | Str s => int_of_string s
  | Int z => Some z
  end.

End Py.

(** ** Data model *)

(** A row of the [Image] table; the primary key is the key of the table. *)
Record Image := mkImage {
  title : string;
  slug : string;
  url : string;
  url_user : string;
  description : string;
  user : Z;
  image : string;
  private : bool;
  users_like : gset Z;
}.

(** A row of the activity log: actor, verb and the id of the target. *)
Record Action := mkAction {
  actor : Z;
  verb : string;
  target_id : Z;
}.

(** The Redis database behind [r]: integer strings (the view counters)
    and the sorted set [image_ranking] (member [image.id], score). *)
Record Redis := mkRedis {
  strings : gmap string Z;
  image_ranking : gmap Z Z;
}.

Record World := mkWorld {
  images : gmap Z Image;
  next_id : Z;
  actions : list Action;
  profiles : gmap Z bool;
  users : gset Z;
  media : list (string * string);
  flash : list string;
  redis : Redis;
}.

Definition set_images (f : gmap Z Image → gmap Z Image) (w : World) : World :=
  mkWorld (f (images w)) (next_id w) (actions w) (profiles w) (users w)
          (media w) (flash w) (redis w).

Definition set_actions (f : list Action → list Action) (w : World) : World :=
  mkWorld (images w) (next_id w) (f (actions w)) (profiles w) (users w)
          (media w) (flash w) (redis w).

Definition set_profiles (f : gmap Z bool → gmap Z bool) (w : World) : World :=
  mkWorld (images w) (next_id w) (actions w) (f (profiles w)) (users w)
          (media w) (flash w) (redis w).

Definition set_media (f : list (string * string) → list (string * string))
    (w : World) : World :=
  mkWorld (images w) (next_id w) (actions w) (profiles w) (users w)
          (f (media w)) (flash w) (redis w).

Definition set_flash (f : list string → list string) (w : World) : World :=
  mkWorld (images w) (next_id w) (actions w) (profiles w) (users w)
          (media w) (f (flash w)) (redis w).

Definition set_redis (f : Redis → Redis) (w : World) : World :=
  mkWorld (images w) (next_id w) (actions w) (profiles w) (users w)
          (media w) (flash w) (f (redis w)).

Definition with_image (name : string) (i : Image) : Image :=
  mkImage (title i) (slug i) (url i) (url_user i) (description i)
          (user i) name (private i) (users_like i).

Definition with_user (u : Z) (i : Image) : Image :=
  mkImage (title i) (slug i) (url i) (url_user i) (description i)
          u (image i) (private i) (users_like i).

Definition with_slug (s : string) (i : Image) : Image :=
  mkImage (title i) s (url i) (url_user i) (description i)
          (user i) (image i) (private i) (users_like i).

Definition with_users_like (likes : gset Z) (i : Image) : Image :=
  mkImage (title i) (slug i) (url i) (url_user i) (description i)
          (user i) (image i) (private i) likes.

(** ** Exceptions and the handler monad *)

Inductive Exc :=
  | KeyError (key : string)
  | IndexError
  | ValueError
  | Http404
  | DoesNotExist (model : string)
  | PageNotAnInteger
  | EmptyPage
  | RequestException
  | DatabaseError.

Global Instance Exc_eq_dec : EqDecision Exc.
Proof. solve_decision. Defined.

Inductive result (A : Type) :=
  | Ok (a : A) (w : World)
  | Raise (e : Exc) (w : World).
Arguments Ok {A} a w.
Arguments Raise {A} e w.

Definition M (A : Type) : Type := World → result A.

Definition ret {A} (a : A) : M A := λ w, Ok a w.
Definition raise {A} (e : Exc) : M A := λ w, Raise e w.
Definition bind {A B} (m : M A) (k : A → M B) : M B :=
  λ w, match m w with
       | Ok a w' => k a w'
       | Raise e w' => Raise e w'
       end.
Definition get_world : M World := λ w, Ok w w.
Definition modify (f : World → World) : M unit := λ w, Ok tt (f w).

(** [try: body except <catches>: handler]; an exception outside
    [catches] propagates. The world at the raise is kept. *)
Definition try_except {A} (catches : Exc → bool) (body : M A)
    (handler : Exc → M A) : M A :=
  λ w, match body w with
       | Ok a w' => Ok a w'
       | Raise e w' => if catches e then handler e w' else Raise e w'
       end.

(** [with transaction.atomic(): body]: when [body] raises, the tables
    are put back as they were on entry and the exception goes on. *)
Definition rollback (entry now : World) : World :=
  mkWorld (images entry) (next_id entry) (actions entry) (profiles entry)
          (users entry) (media now) (flash now) (redis now).

Definition atomic {A} (body : M A) : M A :=
  λ w, match body w with
       | Ok a w' => Ok a w'
       | Raise e w' => Raise e (rollback w w')
       end.

(** The handlers are written with stdpp's monad notations
    ([x ← m; k] and [m ;; k]). *)
Global Instance M_ret : MRet M := @ret.
Global Instance M_bind : MBind M := λ A B k m, bind m k.

Definition final_world {A} (r : result A) : World :=
  match r with
  | Ok _ w => w
  | Raise _ w => w
  end.

Definition lift {A} (r : Exc + A) : M A :=
  match r with
  | inl e => raise e
  | inr a => mret a
  end.

(** ** Requests and responses *)

Inductive Method := method_GET | method_POST.

(** [req_user] is [request.user.id] of an authenticated request, [None]
    for an anonymous one; [GET] and [POST] are the two query dicts. *)
Record Request := mkRequest {
  method : Method;
  req_user : option Z;
  GET : gmap string string;
  POST : gmap string string;
}.

(** A form instance: the bound data and what [full_clean] leaves in
    [cleaned_data] and [errors]. *)
Record Form := mkForm {
  data : gmap string string;
  cleaned_data : gmap string string;
  errors : gmap string string;
}.

(** [Paginator.page] result. *)
Record Page := mkPage {
  object_list : list (Z * Image);
  number : Z;
}.

Inductive Context :=
  | NoContext
  | FormContext (section : string) (form : Form)
  | DetailContext (section : string) (img : Z * Image) (total_views : Z)
  | ListContext (section : string) (imgs : Page) (most_viewed : list (Z * Image))
  | UserListContext (section : string) (imgs : Page).

Inductive Response :=
  | render (template : string) (context : Context)
  | redirect (to : string)
  | redirect_to_login
  | HttpResponse (content : string) (status : Z)
  | JsonResponse (status : string)
  | HttpResponseNotAllowed.

(** [@login_required]: the view runs with the id of the authenticated
    user; an anonymous request is sent to the login page. *)
Definition login_required (view : Z → Request → M Response)
    (request : Request) : M Response :=
  match req_user request with
  | Some u => view u request
  | None => mret redirect_to_login
  end.

(** [@require_POST] *)
Definition require_POST (view : Request → M Response)
    (request : Request) : M Response :=
  match method request with
  | method_POST => view request
  | method_GET => mret HttpResponseNotAllowed
  end.

(** ** The activity log *)

(** Modelled from the spec: [create_action] of [actions/utils.py], which
    is not among the sources. The activity log accepts (actor, verb,
    target record) triples; the call appends one entry. *)
Definition create_action (u : Z) (v : string) (target : Z) : M unit :=
  modify (set_actions (λ log, log ++ [mkAction u v target])).

(** ** [images/forms.py] *)

Inductive outcome :=
  | Cleaned (v : string)
  | ValidationError (msg : string).

Definition valid_extensions : list string := ["jpg"; "jpeg"; "png"].

Definition ImageCreateForm (d : gmap string string) : Form := mkForm d ∅ ∅.

(** [ImageCreateForm.clean_url] *)
Definition clean_url (self : Form) : Exc + outcome :=
  match cleaned_data self !! "url" with
  | None => inl (KeyError "url")
  | Some url =>
      match Py.rsplit_dot_1 url !! 1%nat with
      | None => inl IndexError
      | Some ext =>
          let extension := Py.lower ext in
          if bool_decide (extension ∈ valid_extensions) then inr (Cleaned url)
          else inr (ValidationError
                 "The given URL does not match valid image extensions.")
      end
  end.

(** [Meta.fields] *)
Definition Meta_fields : list string :=
  ["title"; "url"; "url_user"; "description"].

(** The only [clean_<name>] method the form defines. *)
Definition clean_method (name : string) : option (Form → Exc + outcome) :=
  if decide (name = "url") then Some clean_url else None.

(** [Form.add_error]: records the message and drops the field from
    [cleaned_data]. *)
Definition add_error (name msg : string) (self : Form) : Form :=
  mkForm (data self) (delete name (cleaned_data self))
         (<[name := msg]> (errors self)).

Definition set_cleaned (name v : string) (self : Form) : Form :=
  mkForm (data self) (<[name := v]> (cleaned_data self)) (errors self).

Section Submission.

(** Django's own cleaning of one form field (required check, URL
    validation, normalisation), by field name and submitted value. *)
Variable field_clean : string → option string → outcome.
(** [django.utils.text.slugify] *)
Variable slugify : string → string.
(** [requests.get(url).content]; [None] when the request raises. *)
Variable requests_get : string → option string.
(** [Image.get_absolute_url] and the default of the [private] column,
    both set in [models.py]. *)
Variable get_absolute_url : Z → Image → string.
Variable private_default : bool.

(** One round of [Form._clean_fields]: the field's own cleaning, then
    the form's [clean_<name>] method. Only [ValidationError] is caught. *)
Definition clean_field (name : string) (self : Form) : Exc + Form :=
  match field_clean name (data self !! name) with
  | ValidationError msg => inr (add_error name msg self)
  | Cleaned v =>
      let self := set_cleaned name v self in
      match clean_method name with
      | None => inr self
      | Some clean =>
          match clean self with
          | inl e => inl e
          | inr (Cleaned v') => inr (set_cleaned name v' self)
          | inr (ValidationError msg) => inr (add_error name msg self)
          end
      end
  end.

Fixpoint clean_fields (names : list string) (self : Form) : Exc + Form :=
  match names with
  | [] => inr self
  | name :: names' =>
      match clean_field name self with
      | inl e => inl e
      | inr self' => clean_fields names' self'
      end
  end.

(** [Form.full_clean]: the form has no [clean] of its own; the instance
    checks of [_post_clean] count as part of [field_clean]. *)
Definition full_clean (self : Form) : Exc + Form :=
  clean_fields Meta_fields (mkForm (data self) ∅ ∅).

(** [form.is_valid()]: the verdict and the cleaned form. *)
Definition is_valid (self : Form) : Exc + (bool * Form) :=
  match full_clean self with
  | inl e => inl e
  | inr self' => inr (bool_decide (errors self' = ∅), self')
  end.

Definition cleaned (self : Form) (name : string) : string :=
  default "" (cleaned_data self !! name).

(** [ModelForm.save(commit=False)]: an unsaved instance filled from
    [cleaned_data]; its owner is assigned by the caller. *)
Definition ModelForm_save (self : Form) : Image :=
  mkImage (cleaned self "title") "" (cleaned self "url")
          (cleaned self "url_user") (cleaned self "description")
          0 "" private_default ∅.

(** Modelled from the spec: [Image.save] of [images/models.py], which
    is not among the sources. The store assigns the identifier and the
    slug is derived from the title when the record is created. *)
Definition Image_save (i : Image) : M (Z * Image) := λ w,
  let row :=
    if decide (slug i = "") then with_slug (slugify (title i)) i else i in
  Ok (next_id w, row)
     (mkWorld (<[next_id w := row]> (images w)) (next_id w + 1)
              (actions w) (profiles w) (users w) (media w) (flash w)
              (redis w)).

(** [ImageCreateForm.save] *)
Definition ImageCreateForm_save (self : Form) (commit : bool)
    : M (option Z * Image) :=
  let img := ModelForm_save self in
  image_url ← lift (from_option inr (inl (KeyError "url"))
                                (cleaned_data self !! "url"));
  let name := slugify (title img) in
  ext ← lift (from_option inr (inl IndexError)
                          (Py.rsplit_dot_1 image_url !! 1%nat));
  let extension := Py.lower ext in
  let image_name := "f" +:+ name +:+ "." +:+ extension in
  content ← lift (from_option inr (inl RequestException)
                              (requests_get image_url));
  modify (set_media (λ m, m ++ [(image_name, content)])) ;;
  let img := with_image image_name img in
  if commit then
    '(pk, row) ← Image_save img; mret (Some pk, row)
  else mret (None, img).

(** ** [images/views.py]: [image_create] *)

(** [value == True] for a cleaned text value: a [str] never equals
    [True]. *)
Definition eq_True (v : string) : bool := false.

Definition image_create_body (u : Z) (request : Request) : M Response :=
  match method request with
  | method_POST =>
      let form := ImageCreateForm (POST request) in
      '(valid, form) ← lift (is_valid form);
      if (valid : bool) then
        '(unsaved, new_image) ← ImageCreateForm_save form false;
        let new_image := with_user u new_image in
        modify (set_profiles <[u := true]>) ;;
        '(pk, new_image) ← Image_save new_image;
        is_private ← lift (from_option inr (inl (KeyError "is_private"))
                                       (cleaned_data form !! "is_private"));
        (if eq_True is_private
         then create_action u "поделился" pk
         else mret tt) ;;
        modify (set_flash (λ l, l ++ ["Изображение успешно сохранено!"])) ;;
        mret (redirect (get_absolute_url pk new_image))
      else
        mret (render "images/image/create.html"
                     (FormContext "images" form))
  | method_GET =>
      let form := ImageCreateForm (GET request) in
      mret (render "images/image/create.html" (FormContext "images" form))
  end.

Definition image_create : Request → M Response :=
  login_required image_create_body.

End Submission.

(** ** The Redis client [r] *)

(** [r.incr(key)]: a missing key counts as 0; returns the new value. *)
Definition r_incr (key : string) : M Z := λ w,
  let v := default 0 (strings (redis w) !! key) + 1 in
  Ok v (set_redis (λ r, mkRedis (<[key := v]> (strings r)) (image_ranking r)) w).

(** [r.zincrby('image_ranking', amount, member)] *)
Definition r_zincrby (amount member : Z) : M Z := λ w,
  let v := default 0 (image_ranking (redis w) !! member) + amount in
  Ok v (set_redis (λ r, mkRedis (strings r) (<[member := v]> (image_ranking r))) w).

(** Order of [ZRANGE .. REV]: higher score first; members of equal score
    in descending order of their byte strings. *)
Definition rank_before (a b : Z * Z) : Prop :=
  a.2 > b.2 ∨ (a.2 = b.2 ∧ String.le (pretty b.1) (pretty a.1)).

Global Instance rank_before_dec : RelDecision rank_before.
Proof. intros a b. unfold rank_before. apply _. Defined.

(** [r.zrange('image_ranking', 0, -1, desc=True)], members read back
    with [int]. *)
Definition r_zrange_desc (w : World) : list Z :=
  (merge_sort rank_before (map_to_list (image_ranking (redis w)))).*1.

(** ** Python's [list.index] and [list.sort(key=..)] *)

Fixpoint list_index (x : Z) (l : list Z) : option nat :=
  match l with
  | [] => None
  | y :: l' => if decide (y = x) then Some 0%nat else S <$> list_index x l'
  end.

Section Sort.
Context {A : Type}.

(** Stable insertion of a decorated element. *)
Fixpoint insert_key (x : nat * A) (l : list (nat * A)) : list (nat * A) :=
  match l with
  | [] => [x]
  | y :: l' =>
      if decide (x.1 ≤ y.1)%nat then x :: y :: l' else y :: insert_key x l'
  end.

Definition sort_decorated (l : list (nat * A)) : list (nat * A) :=
  foldr insert_key [] l.

(** [l.sort(key=key)]: every key is computed first ([None] stands for
    the exception of the key function), then the list is sorted stably. *)
Definition sort_by (key : A → option nat) (l : list A) : option (list A) :=
  keys ← mapM key l;
  Some (sort_decorated (zip keys l)).*2.
End Sort.

(** The order [sort_decorated] sorts by. *)
Definition key_le {A} : relation (nat * A) := λ x y, (x.1 ≤ y.1)%nat.

(** ** [django.core.paginator] *)

Record Paginator := mkPaginator {
  p_object_list : list (Z * Image);
  per_page : Z;
}.

Definition count (p : Paginator) : Z := Z.of_nat (length (p_object_list p)).

(** [orphans=0], [allow_empty_first_page=True]. *)
Definition num_pages (p : Paginator) : Z :=
  let hits := Z.max 1 (count p) in
  - ((- hits) `div` per_page p).

Definition validate_number (p : Paginator) (v : Py.value) : Exc + Z :=
  match Py.int v with
  | None => inl PageNotAnInteger
  | Some n =>
      if decide (n < 1) then inl EmptyPage
      else if decide (n > num_pages p) then inl EmptyPage
      else inr n
  end.

Definition slice {A} (l : list A) (bottom top : Z) : list A :=
  take (Z.to_nat (top - bottom)) (drop (Z.to_nat bottom) l).

Definition page (p : Paginator) (v : Py.value) : Exc + Page :=
  match validate_number p v with
  | inl e => inl e
  | inr n =>
      let bottom := (n - 1) * per_page p in
      let top := bottom + per_page p in
      let top := if decide (top >= count p) then count p else top in
      inr (mkPage (slice (p_object_list p) bottom top) n)
  end.

(** The [try: .. except PageNotAnInteger: .. except EmptyPage: ..] block
    shared by the two listings; [inl] is the early
    [return HttpResponse('')]. *)
Definition catches_page (e : Exc) : bool :=
  match e with
  | PageNotAnInteger | EmptyPage => true
  | _ => false
  end.

Definition paginate (paginator : Paginator) (pg images_only : option string)
    : M (Response + Page) :=
  try_except catches_page
    (imgs ← lift (page paginator (Py.of_get pg)); mret (inr imgs))
    (λ e,
       match e with
       | PageNotAnInteger =>
           imgs ← lift (page paginator (Py.Int 1)); mret (inr imgs)
       | _ =>
           if Py.truthy images_only then mret (inl (HttpResponse "" 200))
           else
             imgs ← lift (page paginator (Py.Int (num_pages paginator)));
             mret (inr imgs)
       end).

(** ** The object managers *)

(** [Image.objects.get(id=v)]; the lookup value goes through [int]. *)
Definition Image_objects_get (v : Py.value) : M (Z * Image) :=
  match Py.int v with
  | None => raise ValueError
  | Some pk =>
      w ← get_world;
      match images w !! pk with
      | Some img => mret (pk, img)
      | None => raise (DoesNotExist "Image")
      end
  end.

(** [get_object_or_404(Image, id=id, slug=slug)] *)
Definition get_object_or_404 (id : Z) (slug_ : string) : M (Z * Image) :=
  w ← get_world;
  match images w !! id with
  | Some img =>
      if decide (slug img = slug_) then mret (id, img) else raise Http404
  | None => raise Http404
  end.

(** [User.objects.get(id=user_id)] *)
Definition User_objects_get (user_id : Z) : M Z :=
  w ← get_world;
  if decide (user_id ∈ users w) then mret user_id
  else raise (DoesNotExist "User").

(** [image.users_like.add(user)] and [image.users_like.remove(user)] *)
Definition users_like_add (pk u : Z) : M unit :=
  modify (set_images (alter (λ i, with_users_like ({[u]} ∪ users_like i) i) pk)).

Definition users_like_remove (pk u : Z) : M unit :=
  modify (set_images (alter (λ i, with_users_like (users_like i ∖ {[u]}) i) pk)).

(** ** [images/views.py]: the other handlers *)

Definition views_key (id : Z) : string := "image:" +:+ pretty id +:+ ":views".

Definition image_detail (request : Request) (id : Z) (slug_ : string)
    : M Response :=
  img ← get_object_or_404 id slug_;
  total_views ← r_incr (views_key img.1);
  r_zincrby 1 img.1 ;;
  mret (render "images/image/detail.html"
               (DetailContext "images" img total_views)).

Definition catches_Image_DoesNotExist (e : Exc) : bool :=
  bool_decide (e = DoesNotExist "Image").

Definition image_like_body (u : Z) (request : Request) : M Response :=
  let image_id := POST request !! "id" in
  let action := POST request !! "action" in
  if Py.truthy image_id && Py.truthy action then
    try_except catches_Image_DoesNotExist
      (img ← Image_objects_get (Py.of_get image_id);
       (if decide (action = Some "like") then
          users_like_add img.1 u ;;
          create_action u "лайкнул" img.1
        else
          users_like_remove img.1 u) ;;
       mret (JsonResponse "ok"))
      (λ _, mret (JsonResponse "error"))
  else mret (JsonResponse "error").

Definition image_like : Request → M Response :=
  login_required (λ u, require_POST (image_like_body u)).

(** The side list of [image_list]: the first ten members of the
    ranking, the public records among them, put back in ranking order.
    [None] stands for the [ValueError] of [list.index]. *)
Definition most_viewed_of (w : World) : option (list (Z * Image)) :=
  let image_ranking := take 10 (r_zrange_desc w) in
  let image_ranking_ids := image_ranking in
  let most_viewed :=
    filter (λ x, x.1 ∈ image_ranking_ids ∧ private x.2 = false)
           (map_to_list (images w)) in
  sort_by (λ x, list_index x.1 image_ranking_ids) most_viewed.

Definition image_list_body (u : Z) (request : Request) : M Response :=
  w ← get_world;
  let imgs := map_to_list (images w) in
  let paginator := mkPaginator imgs 1000 in
  let pg := GET request !! "page" in
  let images_only := GET request !! "images_only" in
  most_viewed ← lift (from_option inr (inl ValueError) (most_viewed_of w));
  r ← paginate paginator pg images_only;
  match r with
  | inl response => mret response
  | inr imgs =>
      if Py.truthy images_only then
        mret (render "images/image/list_all_images.html"
                     (ListContext "images" imgs most_viewed))
      else
        mret (render "images/image/list.html"
                     (ListContext "images" imgs most_viewed))
  end.

Definition image_list : Request → M Response :=
  login_required image_list_body.

Definition user_images_list_body (u : Z) (request : Request) (user_id : Z)
    : M Response :=
  owner ← User_objects_get user_id;
  let cur_user := u in
  if decide (user_id = cur_user) then
    w ← get_world;
    let imgs := filter (λ x, user x.2 = owner) (map_to_list (images w)) in
    let paginator := mkPaginator imgs 1000 in
    let pg := GET request !! "page" in
    let images_only := GET request !! "images_only" in
    r ← paginate paginator pg images_only;
    match r with
    | inl response => mret response
    | inr imgs =>
        if Py.truthy images_only then
          mret (render "images/image/user_image_list.html"
                       (UserListContext "images" imgs))
        else
          mret (render "images/image/user_image_list.html"
                       (UserListContext "images" imgs))
    end
  else mret (render "images/notfound/NotFound.html" NoContext).

Definition user_images_list (request : Request) (user_id : Z) : M Response :=
  login_required (λ u r, user_images_list_body u r user_id) request.

Section Delete.

(** Failure injection: [fails n] makes the [n]-th database statement of
    the transaction raise once it has run. *)
Variable fails : nat → bool.

Definition statement {A} (n : nat) (op : M A) : M A :=
  a ← op;
  if fails n then raise DatabaseError else mret a.

Definition delete (request : Request) (id_image : Z) : M Response :=
  try_except (λ _, true)
    (atomic
       (img ← statement 0 (Image_objects_get (Py.Int id_image));
        statement 1 (modify (set_images (base.delete img.1))) ;;
        statement 2
          (modify (set_actions
                     (filter (λ a, target_id a ≠ id_image))))))
    (λ e, mret tt) ;;
  mret (render "images/image/delete_success.html" NoContext).

End Delete.

(** ** Vocabulary of the properties *)

(** The view counter and the ranking score of an image, as [r] holds
    them; an absent key reads as 0, as [INCR] and [ZINCRBY] take it. *)
Definition view_counter (w : World) (id : Z) : Z :=
  default 0 (strings (redis w) !! views_key id).

Definition ranking_score (w : World) (id : Z) : Z :=
  default 0 (image_ranking (redis w) !! id).

(** One detail view per request of the list, all of the same image. *)
Fixpoint view_all (requests : list Request) (id : Z) (slug_ : string)
    : M unit :=
  match requests with
  | [] => mret tt
  | request :: requests' =>
      image_detail request id slug_ ;; view_all requests' id slug_
  end.

(** The identifiers [image_list] reads from the ranking, and the rows it
    selects with them (before the sort). *)
Definition top_ids (w : World) : list Z := take 10 (r_zrange_desc w).

Definition public_top (w : World) : list (Z * Image) :=
  filter (λ x, x.1 ∈ top_ids w ∧ private x.2 = false)
         (map_to_list (images w)).

(** The page [Paginator.page] builds for a validated number. *)
Definition page_at (p : Paginator) (n : Z) : Page :=
  let bottom := (n - 1) * per_page p in
  let top := bottom + per_page p in
  let top := if decide (top >= count p) then count p else top in
  mkPage (slice (p_object_list p) bottom top) n.

(** What the pagination block of the listings comes to. *)
Definition paginated (p : Paginator) (pg images_only : option string)
    : Response + Page :=
  match Py.int (Py.of_get pg) with
  | None => inr (page_at p 1)
  | Some n =>
      if decide (1 ≤ n ≤ num_pages p) then inr (page_at p n)
      else if Py.truthy images_only then inl (HttpResponse "" 200)
      else inr (page_at p (num_pages p))
  end.

Definition list_template (images_only : option string) : string :=
  if Py.truthy images_only then "images/image/list_all_images.html"
  else "images/image/list.html".

(** The same request with another [page] parameter. *)
Definition with_page (s : string) (request : Request) : Request :=
  mkRequest (method request) (req_user request)
            (<["page" := s]> (GET request)) (POST request).

(** The world once image [id] and the log entries that target it are gone. *)
Definition deleted (id : Z) (w : World) : World :=
  set_actions (filter (λ a, target_id a ≠ id)) (set_images (base.delete id) w).

(** [delete] commits when the record exists and no statement fails. *)
Definition delete_commits (fails : nat → bool) (id : Z) (w : World) : bool :=
  bool_decide (is_Some (images w !! id)) &&
  negb (fails 0%nat) && negb (fails 1%nat) && negb (fails 2%nat).

(** The world after a like, and after an unlike, of image [id] by [u]. *)
Definition liked (u id : Z) (w : World) : World :=
  set_actions (λ log, log ++ [mkAction u "лайкнул" id])
    (set_images (alter (λ i, with_users_like ({[u]} ∪ users_like i) i) id) w).

Definition unliked (u id : Z) (w : World) : World :=
  set_images (alter (λ i, with_users_like (users_like i ∖ {[u]}) i) id) w.

(** ** Sample data *)

Module Sample.

Definition field_clean (name : string) (raw : option string) : outcome :=
  match raw with
  | Some (String c s) => Cleaned (String c s)
  | _ =>
      if bool_decide (name ∈ ["title"; "url"])
      then ValidationError "This field is required."
      else Cleaned ""
  end.

Definition slugify (s : string) : string := Py.lower s.

Definition requests_get (u : string) : option string := Some "<image bytes>".

Definition get_absolute_url (pk : Z) (i : Image) : string :=
  "/images/detail/" +:+ pretty pk +:+ "/" +:+ slug i +:+ "/".

Definition private_default : bool := false.

Definition image_create : Request → M Response :=
  image_create field_clean slugify requests_get get_absolute_url
               private_default.

Definition cat : Image :=
  mkImage "Cat" "cat" "http://example.com/cat.jpg" "" "a cat" 1
          "fcat.jpg" false {[7]}.

Definition dog : Image :=
  mkImage "Dog" "dog" "http://example.com/dog.png" "" "a dog" 2
          "fdog.png" true ∅.

(** Users 1, 2 and 7; two images; one like in the log. *)
Definition world : World :=
  mkWorld {[ 1 := cat; 2 := dog ]} 3 [mkAction 7 "лайкнул" 1]
          {[ 1 := true; 2 := true ]} {[ 1; 2; 7 ]}
          [("fcat.jpg", "<cat>"); ("fdog.png", "<dog>")] []
          (mkRedis {[ views_key 1 := 5; views_key 2 := 9 ]}
                   {[ 1 := 5; 2 := 9 ]}).

Definition get (u : Z) (query : gmap string string) : Request :=
  mkRequest method_GET (Some u) query ∅.

Definition post (u : Z) (form : gmap string string) : Request :=
  mkRequest method_POST (Some u) ∅ form.

(** A complete submission that asks for a non-private share. *)
Definition submit_public : Request :=
  post 1 {[ "title" := "Bird"; "url" := "http://example.com/bird.JPG";
            "description" := "a bird"; "is_private" := "False" ]}.

(** A submission whose URL holds no dot. *)
Definition submit_no_dot : Request :=
  post 1 {[ "title" := "Bird"; "url" := "http://localhost/image" ]}.


End Sample.

(** * Properties *)

Ltac monad_unfold :=
  repeat (progress (unfold mbind, M_bind, bind, mret, M_ret, ret, raise, lift,
                      modify, get_world; simpl)).

(** ** Submission: the form and [image_create] *)

Lemma rsplit_lookup_1 s :
  Py.rsplit_dot_1 s !! 1%nat = snd <$> Py.rpartition_dot s.
Proof. unfold Py.rsplit_dot_1. by destruct (Py.rpartition_dot s) as [[a b]|]. Qed.

Lemma clean_url_inv self o :
  clean_url self = inr o →
  ∃ url a ext, cleaned_data self !! "url" = Some url ∧
    Py.rpartition_dot url = Some (a, ext) ∧
    o = if bool_decide (Py.lower ext ∈ valid_extensions) then Cleaned url
        else ValidationError
               "The given URL does not match valid image extensions.".
Proof.
  unfold clean_url. intros H.
  destruct (cleaned_data self !! "url") as [url|]; [|done].
  rewrite rsplit_lookup_1 in H.
  destruct (Py.rpartition_dot url) as [[a ext]|] eqn:E; [|done].
  simpl in H. exists url, a, ext. split; [done|]. split; [done|].
  destruct (bool_decide _); by simplify_eq.
Qed.

(** What [clean_url] does on every cleaned URL: it accepts exactly the
    URLs that hold a dot followed by one of the three extensions, in
    any letter case; it raises [ValidationError] for any other text
    after the last dot, and [IndexError] when there is no dot. *)
Lemma clean_url_spec self url :
  cleaned_data self !! "url" = Some url →
  clean_url self =
    match Py.rpartition_dot url with
    | None => inl IndexError
    | Some (_, ext) =>
        if bool_decide (Py.lower ext ∈ valid_extensions)
        then inr (Cleaned url)
        else inr (ValidationError
               "The given URL does not match valid image extensions.")
    end.
Proof.
  intros H. unfold clean_url. rewrite H, rsplit_lookup_1.
  by destruct (Py.rpartition_dot url) as [[a ext]|].
Qed.

(** X2. [clean_url] returns the cleaned URL unchanged exactly when the
    URL holds a dot and the text after its last dot, lowercased, is one
    of the three extensions. *)
Lemma clean_url_accepts_iff self url :
  cleaned_data self !! "url" = Some url →
  clean_url self = inr (Cleaned url) ↔
  ∃ a ext, Py.rpartition_dot url = Some (a, ext) ∧
           Py.lower ext ∈ valid_extensions.
Proof.
  intros H. rewrite (clean_url_spec _ _ H).
  destruct (Py.rpartition_dot url) as [[a ext]|].
  - case_bool_decide as Hext; split.
    + intros _. by exists a, ext.
    + done.
    + done.
    + intros (a' & ext' & ? & ?). by simplify_eq.
  - split; [done|]. by intros (a' & ext' & ? & ?).
Qed.

Lemma errors_not_empty (m : gmap string string) k msg :
  m !! k = Some msg → bool_decide (m = ∅) = false.
Proof.
  intros H. apply bool_decide_eq_false. intros ->.
  by rewrite lookup_empty in H.
Qed.

Section SubmissionProperties.

Variable field_clean : string → option string → outcome.
Variable slugify : string → string.
Variable requests_get : string → option string.
Variable get_absolute_url : Z → Image → string.
Variable private_default : bool.

Local Notation save :=
  (ImageCreateForm_save slugify requests_get private_default).
Local Notation create :=
  (image_create_body field_clean slugify requests_get get_absolute_url
                     private_default).

Lemma clean_field_keys name self self' k :
  clean_field field_clean name self = inr self' →
  is_Some (cleaned_data self' !! k) →
  k = name ∨ is_Some (cleaned_data self !! k).
Proof.
  unfold clean_field. intros H Hk.
  destruct (decide (k = name)) as [|Hne]; [by left|right].
  assert (name ≠ k) by congruence.
  repeat case_match; simplify_eq; unfold set_cleaned, add_error in *;
    simpl in *;
    repeat (rewrite lookup_insert_ne in Hk; [|assumption])
    || (rewrite lookup_delete_ne in Hk; [|assumption]);
    repeat (rewrite lookup_insert_ne in Hk; [|assumption]); done.
Qed.

Lemma clean_fields_keys names self self' k :
  clean_fields field_clean names self = inr self' →
  is_Some (cleaned_data self' !! k) →
  k ∈ names ∨ is_Some (cleaned_data self !! k).
Proof.
  revert self. induction names as [|n names IH]; intros self H Hk; simpl in H.
  - simplify_eq. by right.
  - destruct (clean_field field_clean n self) as [e|s1] eqn:E; [done|].
    destruct (IH _ H Hk) as [?|Hs]; [left; by apply elem_of_cons; right|].
    destruct (clean_field_keys _ _ _ _ E Hs) as [->|?];
      [left; apply elem_of_cons; by left|by right].
Qed.

(** [cleaned_data] only ever holds fields of the form: ['is_private']
    is not one of them. *)
Lemma is_valid_no_is_private d b form :
  is_valid field_clean (ImageCreateForm d) = inr (b, form) →
  cleaned_data form !! "is_private" = None.
Proof.
  unfold is_valid, full_clean. intros H.
  destruct (clean_fields _ _ _) as [|f] eqn:E; simplify_eq.
  apply eq_None_not_Some. intros Hs.
  destruct (clean_fields_keys _ _ _ _ E Hs) as [Hin|Hs'].
  - unfold Meta_fields in Hin.
    repeat (apply elem_of_cons in Hin as [Hin|Hin]; [discriminate|]).
    by apply elem_of_nil in Hin.
  - simpl in Hs'. rewrite lookup_empty in Hs'. by destruct Hs'.
Qed.

Lemma is_valid_true_url d form :
  is_valid field_clean (ImageCreateForm d) = inr (true, form) →
  ∃ url a ext, cleaned_data form !! "url" = Some url ∧
    Py.rpartition_dot url = Some (a, ext) ∧
    Py.lower ext ∈ valid_extensions.
Proof.
  unfold is_valid, full_clean, Meta_fields. simpl.
  unfold clean_field. simpl. intros H.
  destruct (field_clean "title" _); simpl in H.
  all: destruct (field_clean "url" _) as [vu|]; simpl in H.
  all: try destruct (clean_url _) as [|o] eqn:Eu; try done.
  all: try (apply clean_url_inv in Eu as (url & a & ext & Hu & Hp & ->)).
  all: try case_bool_decide.
  all: destruct (field_clean "url_user" _); simpl in H.
  all: destruct (field_clean "description" _); simpl in H.
  all: simplify_eq.
  exists url, a, ext. split; [|done].
  unfold set_cleaned; simpl.
  rewrite !lookup_insert_ne by done. by rewrite lookup_insert_eq.
Qed.

Lemma is_valid_url_error d url a ext :
  field_clean "url" (d !! "url") = Cleaned url →
  Py.rpartition_dot url = Some (a, ext) →
  Py.lower ext ∉ valid_extensions →
  ∃ form, is_valid field_clean (ImageCreateForm d) = inr (false, form) ∧
    errors form !! "url" =
      Some "The given URL does not match valid image extensions.".
Proof.
  intros Hu Hp Hn.
  unfold is_valid, full_clean, Meta_fields. simpl.
  unfold clean_field. simpl.
  assert (∀ f, cleaned_data f !! "url" = Some url → clean_url f =
     inr (ValidationError
            "The given URL does not match valid image extensions.")) as Hc.
  { intros f Hf. rewrite (clean_url_spec _ _ Hf), Hp.
    by rewrite bool_decide_eq_false_2. }
  destruct (field_clean "title" _); simpl; rewrite Hu; simpl.
  all: rewrite Hc by (unfold set_cleaned; simpl; by rewrite lookup_insert_eq).
  all: destruct (field_clean "url_user" _); simpl.
  all: destruct (field_clean "description" _); simpl.
  all: eexists; split; [f_equal; f_equal; eapply errors_not_empty|].
  all: unfold add_error, set_cleaned; simpl.
  all: repeat (rewrite lookup_insert_ne by done); by rewrite lookup_insert_eq.
Qed.

(** X3. A URL with a dot and another extension: the form is shown again
    with the field error; nothing is fetched, stored or logged. *)
Lemma image_create_rejects u request w url a ext :
  method request = method_POST →
  field_clean "url" (POST request !! "url") = Cleaned url →
  Py.rpartition_dot url = Some (a, ext) →
  Py.lower ext ∉ valid_extensions →
  ∃ form,
    create u request w =
      Ok (render "images/image/create.html" (FormContext "images" form)) w ∧
    errors form !! "url" =
      Some "The given URL does not match valid image extensions.".
Proof.
  intros Hm Hu Hp Hn.
  destruct (is_valid_url_error _ _ _ _ Hu Hp Hn) as (form & Hv & He).
  exists form. split; [|done].
  unfold image_create_body. rewrite Hm. monad_unfold. by rewrite Hv.
Qed.

Lemma ImageCreateForm_save_false form w :
  save form false w =
    match cleaned_data form !! "url" with
    | None => Raise (KeyError "url") w
    | Some image_url =>
        match Py.rsplit_dot_1 image_url !! 1%nat with
        | None => Raise IndexError w
        | Some ext =>
            match requests_get image_url with
            | None => Raise RequestException w
            | Some content =>
                let image_name :=
                  "f" +:+ slugify (title (ModelForm_save private_default form))
                      +:+ "." +:+ Py.lower ext in
                Ok (None, with_image image_name
                            (ModelForm_save private_default form))
                   (set_media (λ m, m ++ [(image_name, content)]) w)
            end
        end
    end.
Proof.
  unfold ImageCreateForm_save. monad_unfold.
  destruct (cleaned_data form !! "url"); simpl; [|done].
  destruct (Py.rsplit_dot_1 _ !! _); simpl; [|done].
  by destruct (requests_get _).
Qed.

(** The path of a valid submission, up to the lookup of ['is_private']. *)
Lemma image_create_valid u request w form :
  method request = method_POST →
  is_valid field_clean (ImageCreateForm (POST request)) = inr (true, form) →
  create u request w =
    match save form false w with
    | Raise e w1 => Raise e w1
    | Ok (_, img) w1 =>
        let row := with_user u img in
        let row :=
          if decide (slug row = "")
          then with_slug (slugify (title row)) row else row in
        Raise (KeyError "is_private")
          (mkWorld (<[next_id w1 := row]> (images w1)) (next_id w1 + 1)
             (actions w1) (<[u := true]> (profiles w1)) (users w1)
             (media w1) (flash w1) (redis w1))
    end.
Proof.
  intros Hm Hv. unfold image_create_body. rewrite Hm. monad_unfold.
  rewrite Hv.
  destruct (ImageCreateForm_save _ _ _ _ _ _) as [[o img] w1|e w1]; [|done].
  unfold Image_save. monad_unfold.
  by rewrite (is_valid_no_is_private _ _ _ Hv).
Qed.

Lemma image_create_never_redirects u request w to w' :
  create u request w ≠ Ok (redirect to) w'.
Proof.
  destruct (method request) eqn:Hm.
  { unfold image_create_body. rewrite Hm. by monad_unfold. }
  destruct (is_valid field_clean (ImageCreateForm (POST request))) as [e|[[] form]] eqn:Hv.
  - unfold image_create_body. rewrite Hm. monad_unfold. by rewrite Hv.
  - rewrite (image_create_valid _ _ _ _ Hm Hv).
    by destruct (save form false w) as [[o img] w1|e w1].
  - unfold image_create_body. rewrite Hm. monad_unfold. by rewrite Hv.
Qed.

(** [image_create] never writes to the activity log. *)
Lemma image_create_never_logs u request w :
  actions (final_world (create u request w)) = actions w.
Proof.
  destruct (method request) eqn:Hm.
  { unfold image_create_body. rewrite Hm. by monad_unfold. }
  destruct (is_valid field_clean (ImageCreateForm (POST request))) as [e|[[] form]] eqn:Hv.
  - unfold image_create_body. rewrite Hm. monad_unfold. by rewrite Hv.
  - rewrite (image_create_valid _ _ _ _ Hm Hv), ImageCreateForm_save_false.
    repeat case_match; simplify_eq/=; done.
  - unfold image_create_body. rewrite Hm. monad_unfold. by rewrite Hv.
Qed.

(** C2. For a valid POST submission whose image is fetched, the record
    is saved and the handler then raises [KeyError] on ['is_private'],
    a key that [cleaned_data] does not hold; no request at all reaches
    the redirect. *)
Theorem image_create_is_private_KeyError u request w form content :
  method request = method_POST →
  is_valid field_clean (ImageCreateForm (POST request)) = inr (true, form) →
  requests_get (cleaned form "url") = Some content →
  (cleaned_data form !! "is_private" = None ∧
   ∃ row w',
     create u request w = Raise (KeyError "is_private") w' ∧
     images w' = <[next_id w := row]> (images w) ∧
     user row = u ∧ title row = cleaned form "title" ∧
     url row = cleaned form "url" ∧
     actions w' = actions w ∧ flash w' = flash w) ∧
  (∀ u0 request0 w0 to w1, create u0 request0 w0 ≠ Ok (redirect to) w1).
Proof.
  intros Hm Hv Hget. split; [|intros; apply image_create_never_redirects].
  split; [by eapply is_valid_no_is_private|].
  rewrite (image_create_valid _ _ _ _ Hm Hv), ImageCreateForm_save_false.
  destruct (is_valid_true_url _ _ Hv) as (url0 & a & ext & Hu & Hp & Hext).
  unfold cleaned in Hget. rewrite Hu in *. simpl in Hget.
  rewrite rsplit_lookup_1, Hp, Hget. simpl.
  eexists _, _. split; [done|]. simpl. by repeat split.
Qed.

End SubmissionProperties.

(** C1. The submission of [Sample.submit_public] is valid and asks for a
    non-private share; the record is stored under the next identifier,
    the handler then stops on [KeyError] and the activity log is as it
    was: no event is logged. *)
Theorem image_create_non_private_not_logged :
  ∃ w',
    Sample.image_create Sample.submit_public Sample.world =
      Raise (KeyError "is_private") w' ∧
    POST Sample.submit_public !! "is_private" = Some "False" ∧
    is_Some (images w' !! 3) ∧
    actions w' = actions Sample.world.
Proof.
  eexists. split; [vm_compute; reflexivity|].
  split; [vm_compute; reflexivity|].
  split; [vm_compute; by eexists|vm_compute; reflexivity].
Qed.

(** C8. A URL without a dot has none of the three extensions, yet
    [clean_url] does not raise [ValidationError] on it: [rsplit] yields
    one element, the index fails and [IndexError] leaves [is_valid] and
    the handler; the form is not shown again. *)
Theorem image_create_no_dot_IndexError :
  Py.rsplit_dot_1 "http://localhost/image" = ["http://localhost/image"] ∧
  clean_url (set_cleaned "url" "http://localhost/image" (ImageCreateForm ∅))
    = inl IndexError ∧
  is_valid Sample.field_clean (ImageCreateForm (POST Sample.submit_no_dot))
    = inl IndexError ∧
  Sample.image_create Sample.submit_no_dot Sample.world =
    Raise IndexError Sample.world.
Proof. repeat split; vm_compute; reflexivity. Qed.

Lemma image_create_is_private_KeyError_witness :
  ∃ w',
    image_create_body Sample.field_clean Sample.slugify Sample.requests_get
      Sample.get_absolute_url Sample.private_default 1 Sample.submit_public
      Sample.world = Raise (KeyError "is_private") w' ∧
    is_Some (images w' !! 3).
Proof.
  destruct (image_create_is_private_KeyError
              Sample.field_clean Sample.slugify Sample.requests_get
              Sample.get_absolute_url Sample.private_default
              1 Sample.submit_public Sample.world
              (mkForm (POST Sample.submit_public)
                      {[ "title" := "Bird";
                         "url" := "http://example.com/bird.JPG";
                         "url_user" := ""; "description" := "a bird" ]} ∅)
              "<image bytes>")
    as [[_ (row & w' & Hrun & Himg & _)] _].
  - reflexivity.
  - vm_compute. reflexivity.
  - reflexivity.
  - exists w'. split; [exact Hrun|]. rewrite Himg, lookup_insert_eq. by eexists.
Defined.

(** ** Detail views *)

Lemma app_inj_2 (s1 s2 t : string) : s1 +:+ t = s2 +:+ t → s1 = s2.
Proof.
  assert (Hlen : ∀ a b : string,
    String.length (a +:+ b) = (String.length a + String.length b)%nat).
  { intros a b. induction a as [|c a IHa]; [done|].
    change (S (String.length (a +:+ b))
            = S (String.length a + String.length b)).
    by rewrite IHa. }
  revert s2. induction s1 as [|c s1 IH]; intros [|c2 s2] H.
  - done.
  - apply (f_equal String.length) in H. rewrite !Hlen in H. simpl in H. lia.
  - apply (f_equal String.length) in H. rewrite !Hlen in H. simpl in H. lia.
  - change (String c (s1 +:+ t) = String c2 (s2 +:+ t)) in H.
    injection H as -> H. f_equal. by apply IH.
Qed.

(** Two images never share a counter key. *)
Global Instance views_key_inj : Inj (=) (=) views_key.
Proof.
  intros i j H. unfold views_key in H.
  apply String.app_inj in H. apply app_inj_2 in H. by apply (inj pretty) in H.
Qed.

Lemma image_detail_found request id img w :
  images w !! id = Some img →
  image_detail request id (slug img) w =
    Ok (render "images/image/detail.html"
               (DetailContext "images" (id, img) (view_counter w id + 1)))
       (set_redis
          (λ r, mkRedis (<[views_key id := view_counter w id + 1]> (strings r))
                        (<[id := ranking_score w id + 1]> (image_ranking r)))
          w).
Proof.
  intros H. unfold image_detail, get_object_or_404. monad_unfold. rewrite H.
  rewrite decide_True by done. monad_unfold. done.
Qed.

(** C5. [N] detail views of an image (one per request of the list) add
    exactly [N] to its view counter and to its ranking score; the
    counter and the score of every other image stay as they were. *)
Theorem image_detail_counts requests id img w :
  images w !! id = Some img →
  ∃ w', view_all requests id (slug img) w = Ok tt w' ∧
    view_counter w' id = view_counter w id + Z.of_nat (length requests) ∧
    ranking_score w' id = ranking_score w id + Z.of_nat (length requests) ∧
    (∀ id', id' ≠ id →
       strings (redis w') !! views_key id' = strings (redis w) !! views_key id' ∧
       image_ranking (redis w') !! id' = image_ranking (redis w) !! id') ∧
    images w' = images w.
Proof.
  revert w. induction requests as [|request requests IH]; intros w Hi.
  - exists w. simpl. repeat split; try done; lia.
  - simpl. monad_unfold. rewrite (image_detail_found _ _ _ _ Hi).
    set (w1 := set_redis _ w).
    destruct (IH w1 Hi) as (w' & Hrun & Hc & Hs & Ho & Him).
    exists w'. split; [done|].
    assert (view_counter w1 id = view_counter w id + 1) as Hc1.
    { unfold view_counter, w1. simpl. by rewrite lookup_insert_eq. }
    assert (ranking_score w1 id = ranking_score w id + 1) as Hs1.
    { unfold ranking_score, w1. simpl. by rewrite lookup_insert_eq. }
    split; [lia|]. split; [lia|]. split; [|done].
    intros id' Hne. destruct (Ho id' Hne) as [-> ->]. unfold w1; simpl.
    rewrite !lookup_insert_ne; [done|congruence|].
    intros ?%(inj views_key). congruence.
Qed.

Lemma image_detail_counts_witness :
  ∃ w',
    view_all [Sample.get 7 ∅; Sample.get 2 ∅; Sample.get 7 ∅] 1 "cat"
             Sample.world = Ok tt w' ∧
    view_counter w' 1 = 8 ∧ ranking_score w' 1 = 8 ∧
    view_counter w' 2 = 9 ∧ ranking_score w' 2 = 9.
Proof.
  destruct (image_detail_counts
              [Sample.get 7 ∅; Sample.get 2 ∅; Sample.get 7 ∅] 1
              Sample.cat Sample.world)
    as (w' & Hrun & Hc & Hs & Ho & _).
  - reflexivity.
  - exists w'. split; [exact Hrun|].
    destruct (Ho 2) as [Ho1 Ho2]; [discriminate|].
    unfold view_counter, ranking_score in *. rewrite Ho1, Ho2.
    split; [exact Hc|]. split; [exact Hs|]. split; reflexivity.
Defined.

(** C6. An unknown identifier, or a slug that is not the one of the
    record, ends the detail view with [Http404] in the very world it
    started from: no counter and no score is touched. *)
Theorem image_detail_not_found request id slug_ w :
  (images w !! id = None ∨
   ∃ img, images w !! id = Some img ∧ slug img ≠ slug_) →
  image_detail request id slug_ w = Raise Http404 w.
Proof.
  intros H. unfold image_detail, get_object_or_404. monad_unfold.
  destruct H as [->|(img & -> & Hne)]; [done|]. by rewrite decide_False.
Qed.

Lemma image_detail_not_found_witness :
  image_detail (Sample.get 7 ∅) 5 "cat" Sample.world
    = Raise Http404 Sample.world ∧
  image_detail (Sample.get 7 ∅) 1 "dog" Sample.world
    = Raise Http404 Sample.world.
Proof.
  split.
  - apply image_detail_not_found. left. reflexivity.
  - apply image_detail_not_found. right. exists Sample.cat.
    split; [reflexivity|discriminate].
Defined.

(** ** Delete *)

Lemma rollback_tables w w' :
  media w' = media w → flash w' = flash w → redis w' = redis w →
  rollback w w' = w.
Proof. destruct w. unfold rollback. simpl. by intros -> -> ->. Qed.

(** Whatever its body does before it raises, [atomic] hands back the
    tables of its entry. *)
Lemma atomic_raise {A} (body : M A) w e w' :
  body w = Raise e w' →
  ∃ w'', atomic body w = Raise e w'' ∧
    images w'' = images w ∧ actions w'' = actions w ∧
    profiles w'' = profiles w ∧ users w'' = users w.
Proof. intros H. unfold atomic. rewrite H. by eexists. Qed.

Lemma delete_run fails request id w :
  delete fails request id w =
    Ok (render "images/image/delete_success.html" NoContext)
       (if delete_commits fails id w then deleted id w else w).
Proof.
  unfold delete, delete_commits, try_except, atomic, statement,
    Image_objects_get.
  monad_unfold.
  destruct (images w !! id) as [img|] eqn:Hi; simpl.
  2: { by rewrite rollback_tables. }
  destruct (fails 0%nat); simpl; [by rewrite rollback_tables|].
  destruct (fails 1%nat); simpl; [by rewrite rollback_tables|].
  destruct (fails 2%nat); simpl; [by rewrite rollback_tables|].
  done.
Qed.

(** C3. [delete] always answers with the success page. When the record
    exists and no statement fails, the record and every log entry that
    targets it are gone; in every other case (unknown record, or a
    failure after any of the three statements) the world is the one the
    request started from. *)
Theorem delete_all_or_nothing fails request id w :
  delete fails request id w =
    Ok (render "images/image/delete_success.html" NoContext)
       (if delete_commits fails id w then deleted id w else w) ∧
  images (deleted id w) = base.delete id (images w) ∧
  actions (deleted id w) = filter (λ a, target_id a ≠ id) (actions w) ∧
  images (deleted id w) !! id = None ∧
  Forall (λ a, target_id a ≠ id) (actions (deleted id w)).
Proof.
  split; [apply delete_run|]. simpl. repeat split.
  - apply lookup_delete_eq.
  - apply Forall_forall. intros a Ha.
    by apply list_elem_of_filter in Ha as [? _].
Qed.

(** A failure between [image.delete()] and the clean-up of the log
    leaves the record and its log entries in place. *)
Lemma delete_mid_failure fails request id w :
  fails 1%nat = true →
  delete fails request id w =
    Ok (render "images/image/delete_success.html" NoContext) w.
Proof.
  intros H. rewrite delete_run. unfold delete_commits. rewrite H.
  by rewrite andb_false_r.
Qed.

(** ** Like and unlike *)




(** After a like and an unlike the liked-by set of the image is the
    original one without the user. *)
Lemma unliked_liked_users_like u id img w :
  images w !! id = Some img →
  users_like <$> images (unliked u id (liked u id w)) !! id
    = Some (users_like img ∖ {[u]}).
Proof.
  intros Hi. unfold unliked, liked. simpl.
  rewrite alter_alter_eq, lookup_alter_eq, Hi. simpl. f_equal.
  apply set_eq. intros x.
  rewrite !elem_of_difference, elem_of_union, elem_of_singleton. tauto.
Qed.





(** ** The listing of one user *)

Lemma user_images_list_other u request user_id w :
  req_user request = Some u → user_id ≠ u →
  user_images_list request user_id w =
    if decide (user_id ∈ users w)
    then Ok (render "images/notfound/NotFound.html" NoContext) w
    else Raise (DoesNotExist "User") w.
Proof.
  intros Hu Hne.
  unfold user_images_list, login_required, user_images_list_body,
    User_objects_get.
  rewrite Hu. monad_unfold. case_decide; [|done]. monad_unfold.
  by rewrite decide_False.
Qed.

(** What another user gets does not depend on the image table. *)
Lemma user_images_list_hides_records u request user_id w imgs :
  req_user request = Some u → user_id ≠ u →
  user_images_list request user_id (set_images (λ _, imgs) w) =
  match user_images_list request user_id w with
  | Ok r _ => Ok r (set_images (λ _, imgs) w)
  | Raise e _ => Raise e (set_images (λ _, imgs) w)
  end.
Proof.
  intros Hu Hne. rewrite !(user_images_list_other u) by done. simpl.
  by case_decide.
Qed.

(** C10. User 1 asks for the listing of user 999, who is not in the
    [User] table: [User.objects.get] raises [DoesNotExist], which
    nothing catches; the not-found page is not rendered. *)
Theorem user_images_list_unknown_user_raises :
  req_user (Sample.get 1 ∅) = Some 1 ∧ 999 ≠ 1 ∧
  user_images_list (Sample.get 1 ∅) 999 Sample.world =
    Raise (DoesNotExist "User") Sample.world.
Proof.
  split; [reflexivity|]. split; [discriminate|]. vm_compute. reflexivity.
Qed.

(** ** The most viewed list *)

Global Instance rank_before_total : Total rank_before.
Proof.
  intros [m1 s1] [m2 s2]. unfold rank_before. simpl.
  destruct (Z.lt_trichotomy s1 s2) as [?|[->|?]]; [right; left; lia| |left; left; lia].
  destruct (total String.le (pretty m1) (pretty m2)); [right|left]; by right.
Qed.

Global Instance rank_before_trans : Transitive rank_before.
Proof.
  intros [m1 s1] [m2 s2] [m3 s3]. unfold rank_before. simpl.
  intros [?|[-> H1]] [?|[-> H2]]; try (left; lia).
  right. split; [done|]. by etrans.
Qed.

Section SortProperties.
Context {A : Type}.
Implicit Types (x : nat * A) (l : list (nat * A)).

Lemma insert_key_Permutation x l : insert_key x l ≡ₚ x :: l.
Proof.
  induction l as [|y l IH]; simpl; [done|].
  case_decide; [done|]. by rewrite IH, Permutation_swap.
Qed.

Lemma sort_decorated_Permutation l : sort_decorated l ≡ₚ l.
Proof.
  induction l as [|x l IH]; simpl; [done|].
  by rewrite insert_key_Permutation, IH.
Qed.

Lemma insert_key_Sorted x l : Sorted key_le l → Sorted key_le (insert_key x l).
Proof.
  induction 1 as [|y l Hl IH Hhd]; simpl.
  - by repeat constructor.
  - case_decide.
    + constructor; [by constructor|by constructor].
    + constructor; [done|].
      destruct Hhd as [|z l' Hyz]; simpl.
      * constructor. unfold key_le. lia.
      * case_decide; constructor; unfold key_le in *; lia.
Qed.

Lemma sort_decorated_Sorted l : StronglySorted key_le (sort_decorated l).
Proof.
  apply Sorted_StronglySorted.
  { intros x y z. unfold key_le. lia. }
  induction l as [|x l IH]; simpl; [constructor|by apply insert_key_Sorted].
Qed.
End SortProperties.

Lemma StronglySorted_lookup_lt {A} (R : relation A) l i j x y :
  StronglySorted R l → (i < j)%nat → l !! i = Some x → l !! j = Some y → R x y.
Proof.
  intros Hl. revert i j. induction Hl as [|z l Hl IH Hz]; intros i j Hij Hi Hj; [done|].
  destruct j as [|j]; [lia|]. simpl in Hj.
  destruct i as [|i]; simpl in Hi.
  - simplify_eq. rewrite Forall_forall in Hz. apply Hz. by eapply list_elem_of_lookup_2.
  - eapply (IH i j); [lia|done..].
Qed.

Lemma StronglySorted_fmap_Forall {A B} (f : A → B) (P : A → Prop)
    (R1 : relation A) (R2 : relation B) l :
  (∀ x y, P x → P y → R1 x y → R2 (f x) (f y)) →
  Forall P l → StronglySorted R1 l → StronglySorted R2 (f <$> l).
Proof.
  intros Hmono HP Hl. induction Hl as [|x l Hl IH Hx]; simpl; [constructor|].
  apply Forall_cons in HP as [Hpx HP].
  constructor; [by apply IH|].
  apply Forall_fmap, Forall_forall. intros y Hy. simpl.
  rewrite Forall_forall in Hx, HP. by apply Hmono; auto.
Qed.

Lemma list_index_lookup x l k : list_index x l = Some k → l !! k = Some x.
Proof.
  revert k. induction l as [|y l IH]; intros k H; simpl in *; [done|].
  case_decide; simplify_eq/=; [done|].
  destruct (list_index x l) as [k'|]; simplify_eq/=. by apply IH.
Qed.

Lemma list_index_is_Some x l : x ∈ l → is_Some (list_index x l).
Proof.
  induction 1 as [y l|y z l _ IH]; simpl.
  - rewrite decide_True by done. by eexists.
  - case_decide; [by eexists|]. destruct IH as [k ->]. by eexists.
Qed.

Lemma r_zrange_desc_lookup w i a :
  r_zrange_desc w !! i = Some a →
  merge_sort rank_before (map_to_list (image_ranking (redis w))) !! i
    = Some (a, ranking_score w a).
Proof.
  unfold r_zrange_desc. intros H.
  apply list_lookup_fmap_Some in H as ([a' s] & -> & H). simpl.
  rewrite H. do 2 f_equal.
  apply list_elem_of_lookup_2 in H.
  rewrite merge_sort_Permutation in H.
  apply elem_of_map_to_list in H. unfold ranking_score. by rewrite H.
Qed.

Lemma r_zrange_desc_scores w i j a b :
  (i ≤ j)%nat →
  r_zrange_desc w !! i = Some a → r_zrange_desc w !! j = Some b →
  ranking_score w b ≤ ranking_score w a.
Proof.
  intros Hij Hi Hj.
  destruct (decide (i = j)) as [->|Hne]; [by simplify_eq|].
  apply r_zrange_desc_lookup in Hi, Hj.
  assert (rank_before (a, ranking_score w a) (b, ranking_score w b)) as Hr.
  { eapply (StronglySorted_lookup_lt _ _ i j); [|lia|done..].
    apply StronglySorted_merge_sort; apply _. }
  unfold rank_before in Hr. simpl in Hr. lia.
Qed.

Lemma zip_Forall2 {A B} (P : A → B → Prop) (l : list A) (k : list B) :
  Forall2 P l k → Forall (λ d, P d.2 d.1) (zip k l).
Proof. induction 1; simpl; constructor; auto. Qed.

Lemma most_viewed_of_unfold w :
  most_viewed_of w =
    sort_by (λ x, list_index x.1 (top_ids w)) (public_top w).
Proof. reflexivity. Qed.

Lemma public_top_rows w :
  Forall (λ x, x.1 ∈ top_ids w ∧ images w !! x.1 = Some x.2 ∧
               private x.2 = false) (public_top w).
Proof.
  apply Forall_forall. intros [i img] Hx.
  apply list_elem_of_filter in Hx as [[? ?] Hx].
  by apply elem_of_map_to_list in Hx.
Qed.

(** Every selected row has a position in the ranking: [list.index]
    never raises inside the sort. *)
Lemma most_viewed_keys w :
  ∃ keys,
    mapM (λ x : Z * Image, list_index x.1 (top_ids w)) (public_top w)
      = Some keys.
Proof.
  apply mapM_is_Some_2.
  eapply Forall_impl; [apply public_top_rows|].
  intros x (? & _). by apply list_index_is_Some.
Qed.

Lemma most_viewed_of_is_Some w : is_Some (most_viewed_of w).
Proof.
  rewrite most_viewed_of_unfold. unfold sort_by.
  destruct (most_viewed_keys w) as [keys ->]. by eexists.
Qed.

Lemma public_top_length w : (length (public_top w) ≤ 10)%nat.
Proof.
  assert ((public_top w).*1 ⊆+ top_ids w) as Hsub.
  { apply NoDup_submseteq.
    - eapply sublist_NoDup; [apply (NoDup_fst_map_to_list (images w))|].
      apply fmap_sublist, sublist_filter.
    - intros i Hi. apply list_elem_of_fmap in Hi as (x & -> & Hx).
      pose proof (public_top_rows w) as Hrows.
      rewrite Forall_forall in Hrows. by apply Hrows. }
  apply submseteq_length in Hsub. rewrite length_fmap in Hsub.
  unfold top_ids in Hsub. rewrite length_take in Hsub. lia.
Qed.

(** C4. In every world the side list of [image_list] is computed (the
    key function of the sort never fails); it holds at most 10 entries,
    each a record of the table whose [private] flag is off, and ranking
    scores never increase along the list. *)
Theorem most_viewed_spec w :
  ∃ most_viewed,
    most_viewed_of w = Some most_viewed ∧
    (length most_viewed ≤ 10)%nat ∧
    Forall (λ x, images w !! x.1 = Some x.2 ∧ private x.2 = false)
           most_viewed ∧
    StronglySorted (λ x y, ranking_score w y.1 ≤ ranking_score w x.1)
                   most_viewed.
Proof.
  rewrite most_viewed_of_unfold. unfold sort_by.
  destruct (most_viewed_keys w) as [keys Hkeys]. rewrite Hkeys. simpl.
  eexists. split; [done|].
  pose proof (length_mapM _ _ _ Hkeys) as Hlen.
  assert ((sort_decorated (zip keys (public_top w))).*2 ≡ₚ public_top w)
    as Hperm.
  { rewrite sort_decorated_Permutation, snd_zip by lia. done. }
  split; [|split].
  - rewrite Hperm. apply public_top_length.
  - rewrite Hperm. eapply Forall_impl; [apply public_top_rows|].
    by intros x (_ & ? & ?).
  - eapply (StronglySorted_fmap_Forall snd
              (λ d, top_ids w !! d.1 = Some d.2.1));
      [| |apply sort_decorated_Sorted].
    + intros [k1 x1] [k2 x2] H1 H2 Hle. unfold key_le in Hle. simpl in *.
      unfold top_ids in H1, H2.
      apply lookup_take_Some in H1 as [H1 _].
      apply lookup_take_Some in H2 as [H2 _].
      by eapply r_zrange_desc_scores.
    + rewrite sort_decorated_Permutation.
      apply mapM_Some_1 in Hkeys. apply zip_Forall2 in Hkeys.
      eapply Forall_impl; [exact Hkeys|]. intros [k x] H. simpl in *.
      by apply list_index_lookup.
Qed.

(** ** Pagination of the listing *)

Lemma num_pages_ge_1 p : 0 < per_page p → 1 ≤ num_pages p.
Proof.
  intros Hp. unfold num_pages.
  assert (1 ≤ Z.max 1 (count p)) by lia.
  generalize dependent (Z.max 1 (count p)). intros hits Hh.
  Z.to_euclidean_division_equations. nia.
Qed.

Lemma page_spec p v :
  page p v =
    match Py.int v with
    | None => inl PageNotAnInteger
    | Some n =>
        if decide (1 ≤ n ≤ num_pages p) then inr (page_at p n) else inl EmptyPage
    end.
Proof.
  unfold page, validate_number. destruct (Py.int v) as [n|]; [|done].
  unfold page_at. repeat case_decide; try done; lia.
Qed.

Lemma paginate_spec p pg images_only w :
  0 < per_page p →
  paginate p pg images_only w = Ok (paginated p pg images_only) w.
Proof.
  intros Hp. pose proof (num_pages_ge_1 p Hp).
  unfold paginate, paginated, try_except. monad_unfold.
  rewrite !page_spec. simpl.
  destruct (Py.int (Py.of_get pg)) as [n|]; simpl.
  - case_decide; simpl; [done|].
    destruct (Py.truthy images_only); [done|].
    by rewrite decide_True by lia.
  - by rewrite decide_True by lia.
Qed.

Lemma image_list_body_spec u request w most_viewed :
  most_viewed_of w = Some most_viewed →
  image_list_body u request w =
    Ok (match paginated (mkPaginator (map_to_list (images w)) 1000)
                        (GET request !! "page") (GET request !! "images_only") with
        | inl response => response
        | inr imgs =>
            render (list_template (GET request !! "images_only"))
                   (ListContext "images" imgs most_viewed)
        end) w.
Proof.
  intros Hmv. unfold image_list_body, list_template. monad_unfold. rewrite Hmv. simpl.
  rewrite paginate_spec by done.
  destruct (paginated _ _ _); [done|]. by destruct (Py.truthy _).
Qed.

Lemma image_list_spec u request w most_viewed :
  req_user request = Some u →
  most_viewed_of w = Some most_viewed →
  image_list request w =
    Ok (match paginated (mkPaginator (map_to_list (images w)) 1000)
                        (GET request !! "page")
                        (GET request !! "images_only") with
        | inl response => response
        | inr imgs =>
            render (list_template (GET request !! "images_only"))
                   (ListContext "images" imgs most_viewed)
        end) w.
Proof.
  intros Hu Hmv. unfold image_list, login_required. rewrite Hu.
  by apply image_list_body_spec.
Qed.


(** * Further handlers and properties *)

(** ** Vocabulary *)

(** A string that holds no dot. *)
Definition no_dot (s : string) : Prop := ∀ a b, s ≠ a +:+ "." +:+ b.

(** The view counter and the ranking score agree on every image. *)
Definition in_sync (w : World) : Prop :=
  ∀ id, view_counter w id = ranking_score w id.

(** The image table without the liked-by sets. *)
Definition without_likes (w : World) : gmap Z Image :=
  with_users_like ∅ <$> images w.

(** ** [images/views.py]: [download_image] *)



Section Download.

(** The bytes the storage holds under a file name, as [HttpResponse]
    reads them from [image.image]. *)
Variable read_file : string → string.



End Download.

(** A network on which every fetch fails. *)
Definition requests_get_down (u : string) : option string := None.

(** ** The extension of a URL *)

Lemma app_cons c a b : String c a +:+ b = String c (a +:+ b).
Proof. reflexivity. Qed.

Lemma no_dot_cons c s : no_dot (String c s) ↔ c ≠ "."%char ∧ no_dot s.
Proof.
  unfold no_dot. split.
  - intros H. split.
    + intros ->. by apply (H "" s).
    + intros a b ->. by apply (H (String c a) b).
  - intros [Hc Hs] [|c' a] b Heq.
    + change (String c s = String "." b) in Heq. congruence.
    + rewrite app_cons in Heq. injection Heq as -> Heq. by apply (Hs a b).
Qed.

Lemma no_dot_empty : no_dot "".
Proof. intros [|c a] b; discriminate. Qed.

(** X1. [rsplit('.', 1)] cuts at the last dot: the string is the part
    before, a dot and the part after, and the part after holds no dot;
    without any dot there is no cut. *)
Theorem rpartition_dot_spec s :
  match Py.rpartition_dot s with
  | Some (a, b) => s = a +:+ "." +:+ b ∧ no_dot b
  | None => no_dot s
  end.
Proof.
  induction s as [|c s IH]; simpl; [apply no_dot_empty|].
  destruct (Py.rpartition_dot s) as [[a b]|].
  - destruct IH as [-> Hb]. by rewrite app_cons.
  - destruct (Ascii.eqb_spec c ".") as [->|Hc].
    + split; [done|done].
    + by apply no_dot_cons.
Qed.

Lemma clean_url_accepts_iff_witness :
  clean_url (set_cleaned "url" "http://example.com/a.b/bird.JPeG"
                         (ImageCreateForm ∅))
    = inr (Cleaned "http://example.com/a.b/bird.JPeG").
Proof.
  apply clean_url_accepts_iff; [reflexivity|].
  exists "http://example.com/a.b/bird", "JPeG".
  split; [reflexivity|]. apply (bool_decide_unpack _). vm_compute. exact I.
Defined.

Lemma image_create_rejects_witness :
  ∃ form,
    Sample.image_create
      (Sample.post 1 {[ "title" := "Bird";
                        "url" := "http://example.com/bird.jpg.exe" ]})
      Sample.world =
      Ok (render "images/image/create.html" (FormContext "images" form))
         Sample.world.
Proof.
  destruct (image_create_rejects Sample.field_clean Sample.slugify
              Sample.requests_get Sample.get_absolute_url
              Sample.private_default 1
              (Sample.post 1 {[ "title" := "Bird";
                                "url" := "http://example.com/bird.jpg.exe" ]})
              Sample.world "http://example.com/bird.jpg.exe"
              "http://example.com/bird.jpg" "exe")
    as (form & Hrun & _).
  - reflexivity.
  - vm_compute. reflexivity.
  - vm_compute. reflexivity.
  - apply (bool_decide_unpack _). vm_compute. exact I.
  - exists form. exact Hrun.
Defined.

(** ** What a submission writes *)

Section SubmissionEffects.

Variable field_clean : string → option string → outcome.
Variable slugify : string → string.
Variable requests_get : string → option string.
Variable get_absolute_url : Z → Image → string.
Variable private_default : bool.

Local Notation save_form :=
  (ImageCreateForm_save slugify requests_get private_default).
Local Notation create_body :=
  (image_create_body field_clean slugify requests_get get_absolute_url
                     private_default).

(** X4. A form that [is_valid] accepted is saved (without commit) under
    the name [f<slug>.<ext>], [ext] one of the three lower-case
    extensions; one file with the fetched bytes is added to the storage
    and no table is written. *)
Theorem ImageCreateForm_save_names_file d form content w :
  is_valid field_clean (ImageCreateForm d) = inr (true, form) →
  requests_get (cleaned form "url") = Some content →
  ∃ ext img,
    ext ∈ valid_extensions ∧
    image img = "f" +:+ slugify (cleaned form "title") +:+ "." +:+ ext ∧
    title img = cleaned form "title" ∧ url img = cleaned form "url" ∧
    save_form form false w =
      Ok (None, img) (set_media (λ m, m ++ [(image img, content)]) w).
Proof.
  intros Hv Hget.
  destruct (is_valid_true_url _ _ _ Hv) as (url0 & a & ext & Hu & Hp & Hext).
  unfold cleaned in Hget. rewrite Hu in Hget. simpl in Hget.
  rewrite ImageCreateForm_save_false, Hu, rsplit_lookup_1, Hp. simpl.
  rewrite Hget.
  exists (Py.lower ext),
    (with_image ("f" +:+ slugify (cleaned form "title") +:+ "." +:+ Py.lower ext)
                (ModelForm_save private_default form)).
  split; [done|]. split; [reflexivity|]. split; [reflexivity|].
  split; reflexivity.
Qed.

(** X5. When the fetch of a valid submission raises, the handler ends with
    that exception in the world it started from. *)
Theorem image_create_fetch_failure u request w form :
  method request = method_POST →
  is_valid field_clean (ImageCreateForm (POST request)) = inr (true, form) →
  requests_get (cleaned form "url") = None →
  create_body u request w = Raise RequestException w.
Proof.
  intros Hm Hv Hget.
  destruct (is_valid_true_url _ _ _ Hv) as (url0 & a & ext & Hu & Hp & Hext).
  unfold cleaned in Hget. rewrite Hu in Hget. simpl in Hget.
  rewrite (image_create_valid _ _ _ _ _ _ _ _ _ Hm Hv).
  by rewrite ImageCreateForm_save_false, Hu, rsplit_lookup_1, Hp, Hget.
Qed.

(** X6. Whatever the request, [image_create] leaves the activity log, the
    session messages, Redis and the user table as they were, and keeps
    every record stored under another identifier than the next one. *)
Theorem image_create_frame u request w :
  let w' := final_world (create_body u request w) in
  actions w' = actions w ∧ flash w' = flash w ∧ redis w' = redis w ∧
  users w' = users w ∧
  ∀ id, id ≠ next_id w → images w' !! id = images w !! id.
Proof.
  destruct (method request) eqn:Hm.
  { unfold image_create_body. rewrite Hm. by monad_unfold. }
  destruct (is_valid field_clean (ImageCreateForm (POST request)))
    as [e|[[] form]] eqn:Hv.
  - unfold image_create_body. rewrite Hm. monad_unfold. by rewrite Hv.
  - rewrite (image_create_valid _ _ _ _ _ _ _ _ _ Hm Hv),
      ImageCreateForm_save_false.
    repeat case_match; simplify_eq/=; repeat split; try done.
    all: intros id Hid; by rewrite lookup_insert_ne.
  - unfold image_create_body. rewrite Hm. monad_unfold. by rewrite Hv.
Qed.

End SubmissionEffects.

Lemma ImageCreateForm_save_names_file_witness :
  ∃ ext img w',
    ImageCreateForm_save Sample.slugify Sample.requests_get
      Sample.private_default
      (mkForm (POST Sample.submit_public)
              {[ "title" := "Bird"; "url" := "http://example.com/bird.JPG";
                 "url_user" := ""; "description" := "a bird" ]} ∅)
      false Sample.world = Ok (None, img) w' ∧
    ext ∈ valid_extensions ∧
    image img = "f" +:+ Sample.slugify "Bird" +:+ "." +:+ ext.
Proof.
  destruct (ImageCreateForm_save_names_file Sample.field_clean Sample.slugify
              Sample.requests_get Sample.private_default
              (POST Sample.submit_public)
              (mkForm (POST Sample.submit_public)
                      {[ "title" := "Bird";
                         "url" := "http://example.com/bird.JPG";
                         "url_user" := ""; "description" := "a bird" ]} ∅)
              "<image bytes>" Sample.world)
    as (ext & img & Hext & Himg & _ & _ & Hrun).
  - vm_compute. reflexivity.
  - reflexivity.
  - exists ext, img. eexists. split; [exact Hrun|]. split; [exact Hext|].
    exact Himg.
Defined.

Lemma image_create_fetch_failure_witness :
  image_create_body Sample.field_clean Sample.slugify requests_get_down
    Sample.get_absolute_url Sample.private_default 1 Sample.submit_public
    Sample.world = Raise RequestException Sample.world.
Proof.
  apply (image_create_fetch_failure Sample.field_clean Sample.slugify
           requests_get_down Sample.get_absolute_url Sample.private_default
           1 Sample.submit_public Sample.world
           (mkForm (POST Sample.submit_public)
                   {[ "title" := "Bird";
                      "url" := "http://example.com/bird.JPG";
                      "url_user" := ""; "description" := "a bird" ]} ∅)).
  - reflexivity.
  - vm_compute. reflexivity.
  - reflexivity.
Defined.

(** ** Detail views and the two counters *)

(** X7. The number a detail page shows is the counter once incremented,
    the value Redis holds afterwards; the tables and the storage are as
    they were. *)
Theorem image_detail_shows_counter request id img w :
  images w !! id = Some img →
  ∃ total w',
    image_detail request id (slug img) w =
      Ok (render "images/image/detail.html"
                 (DetailContext "images" (id, img) total)) w' ∧
    total = view_counter w' id ∧ total = view_counter w id + 1 ∧
    images w' = images w ∧ actions w' = actions w ∧ media w' = media w.
Proof.
  intros Hi. rewrite (image_detail_found _ _ _ _ Hi).
  eexists _, _. split; [done|]. simpl. repeat split.
  unfold view_counter at 2. simpl. by rewrite lookup_insert_eq.
Qed.

(** X8. A detail view, found or not, keeps the view counters and the
    ranking scores in agreement when they agreed before. *)
Theorem image_detail_keeps_sync request id slug_ w :
  in_sync w → in_sync (final_world (image_detail request id slug_ w)).
Proof.
  intros Hs.
  destruct (images w !! id) as [img|] eqn:Hi.
  2: { rewrite image_detail_not_found by (by left). done. }
  destruct (decide (slug img = slug_)) as [<-|Hne].
  2: { rewrite image_detail_not_found by (right; eauto). done. }
  rewrite (image_detail_found _ _ _ _ Hi). simpl. intros id'.
  pose proof (Hs id) as Hid0. pose proof (Hs id') as Hid'.
  unfold view_counter, ranking_score in *. simpl.
  destruct (decide (id' = id)) as [->|Hid].
  - rewrite !lookup_insert_eq. simpl. by rewrite Hid0.
  - rewrite !lookup_insert_ne; [done|congruence|].
    intros ?%(inj views_key). congruence.
Qed.

Lemma image_detail_shows_counter_witness :
  ∃ w',
    image_detail (Sample.get 7 ∅) 1 "cat" Sample.world =
      Ok (render "images/image/detail.html"
                 (DetailContext "images" (1, Sample.cat) 6)) w'.
Proof.
  destruct (image_detail_shows_counter (Sample.get 7 ∅) 1 Sample.cat
              Sample.world) as (total & w' & Hrun & _ & Ht & _).
  - reflexivity.
  - exists w'. refine (eq_trans Hrun _). rewrite Ht. reflexivity.
Defined.

Lemma image_detail_keeps_sync_witness :
  in_sync (final_world (image_detail (Sample.get 1 ∅) 1 "cat"
     (mkWorld {[ 1 := Sample.cat ]} 2 [] ∅ {[1]} [] [] (mkRedis ∅ ∅)))).
Proof.
  apply image_detail_keeps_sync. intros id. reflexivity.
Defined.

(** ** Likes *)



Lemma without_likes_alter f id w :
  (∀ i, with_users_like ∅ (f i) = with_users_like ∅ i) →
  with_users_like ∅ <$> alter f id (images w) = with_users_like ∅ <$> images w.
Proof.
  intros Hf. apply map_eq. intros i. rewrite !lookup_fmap.
  destruct (decide (i = id)) as [->|Hne].
  - rewrite lookup_alter_eq. destruct (images w !! id); simpl; [|done].
    by rewrite Hf.
  - by rewrite lookup_alter_ne.
Qed.

(** X12. Whatever the request, [image_like] adds and removes no record
    and changes no field of a record but its liked-by set; Redis, the
    storage, the users and the profiles stay as they were. *)
Theorem image_like_frame request w :
  let w' := final_world (image_like request w) in
  without_likes w' = without_likes w ∧
  redis w' = redis w ∧ media w' = media w ∧ users w' = users w ∧
  profiles w' = profiles w ∧ next_id w' = next_id w.
Proof.
  unfold image_like, login_required, require_POST.
  destruct (req_user request) as [u|]; [|done].
  destruct (method request); [done|].
  unfold image_like_body.
  destruct (_ && _); [|done].
  unfold try_except, Image_objects_get.
  destruct (Py.int _) as [id|]; [|done].
  monad_unfold. destruct (images w !! id) as [img|]; [|done].
  monad_unfold. unfold users_like_add, users_like_remove, create_action.
  case_decide; monad_unfold; (split; [|done]);
    unfold without_likes; simpl; by apply without_likes_alter.
Qed.





(** ** The listing *)

Lemma slice_elem_of {A} (l : list A) bottom top x :
  x ∈ slice l bottom top → x ∈ l.
Proof.
  unfold slice. intros H.
  apply list_elem_of_lookup in H as [i H].
  apply lookup_take_Some in H as [H _]. rewrite lookup_drop in H.
  by eapply list_elem_of_lookup_2.
Qed.

Lemma page_at_length p n :
  0 < per_page p → (length (object_list (page_at p n)) ≤ Z.to_nat (per_page p))%nat.
Proof.
  intros Hp. unfold page_at, slice. simpl. rewrite length_take.
  case_decide; lia.
Qed.

Lemma page_at_elem_of p n x :
  x ∈ object_list (page_at p n) → x ∈ p_object_list p.
Proof. unfold page_at. simpl. apply slice_elem_of. Qed.

(** X14. The listing never raises and never changes the world; a page it
    renders holds at most 1000 rows, each a row of the image table. *)
Theorem image_list_total u request w :
  req_user request = Some u →
  ∃ r, image_list request w = Ok r w ∧
    (r = HttpResponse "" 200 ∨
     ∃ pg mv, r = render (list_template (GET request !! "images_only"))
                         (ListContext "images" pg mv) ∧
       most_viewed_of w = Some mv ∧
       (length (object_list pg) ≤ 1000)%nat ∧
       Forall (λ x, images w !! x.1 = Some x.2) (object_list pg)).
Proof.
  intros Hu. destruct (most_viewed_of_is_Some w) as [mv Hmv].
  rewrite (image_list_spec u _ _ mv) by done.
  eexists. split; [done|].
  set (p := mkPaginator (map_to_list (images w)) 1000).
  assert (∀ n, (length (object_list (page_at p n)) ≤ 1000)%nat ∧
               Forall (λ x, images w !! x.1 = Some x.2) (object_list (page_at p n)))
    as Hpage.
  { intros n. split; [by apply (page_at_length p n)|].
    apply Forall_forall. intros [i img] Hx. apply page_at_elem_of in Hx.
    by apply elem_of_map_to_list in Hx. }
  unfold paginated.
  destruct (Py.int _) as [n|].
  - case_decide; [right; eexists _, _; split; [done|]; split; [done|apply Hpage]|].
    destruct (Py.truthy (GET request !! "images_only")) eqn:Ht; [by left|].
    right. eexists _, _. split; [done|]. split; [done|]. apply Hpage.
  - right. eexists _, _. split; [done|]. split; [done|]. apply Hpage.
Qed.

Lemma slice_all {A} (l : list A) (top : Z) :
  top = Z.of_nat (length l) → slice l 0 top = l.
Proof.
  intros ->. unfold slice. simpl. rewrite Z.sub_0_r, Nat2Z.id.
  by rewrite firstn_all.
Qed.

(** X15. With at most 1000 records and no [page] parameter, the page of
    the listing holds every record of the table, the private ones of
    other users included. *)
Theorem image_list_first_page_all u request w :
  req_user request = Some u →
  GET request !! "page" = None →
  (length (map_to_list (images w)) ≤ 1000)%nat →
  ∃ mv,
    image_list request w =
      Ok (render (list_template (GET request !! "images_only"))
                 (ListContext "images" (mkPage (map_to_list (images w)) 1) mv))
         w ∧
    ∀ id img, images w !! id = Some img →
              (id, img) ∈ map_to_list (images w).
Proof.
  intros Hu Hpg Hlen. destruct (most_viewed_of_is_Some w) as [mv Hmv].
  exists mv. split; [|by intros id img ?%elem_of_map_to_list].
  rewrite (image_list_spec u _ _ mv) by done.
  rewrite Hpg. unfold paginated, page_at, count. simpl.
  rewrite decide_True by lia. by rewrite slice_all.
Qed.

Lemma image_list_total_witness :
  ∃ r, image_list (Sample.get 1 {[ "page" := "2" ]}) Sample.world
       = Ok r Sample.world.
Proof.
  destruct (image_list_total 1 (Sample.get 1 {[ "page" := "2" ]})
              Sample.world) as (r & Hrun & _).
  - reflexivity.
  - exists r. exact Hrun.
Defined.

Lemma image_list_first_page_all_witness :
  ∃ mv,
    image_list (Sample.get 1 ∅) Sample.world =
      Ok (render "images/image/list.html"
            (ListContext "images"
               (mkPage (map_to_list (images Sample.world)) 1) mv))
         Sample.world.
Proof.
  destruct (image_list_first_page_all 1 (Sample.get 1 ∅) Sample.world)
    as (mv & Hrun & _).
  - reflexivity.
  - reflexivity.
  - vm_compute. lia.
  - exists mv. exact Hrun.
Defined.

(** ** Who is among the most viewed *)

Lemma r_zrange_desc_ranked w i :
  i ∈ r_zrange_desc w ↔ is_Some (image_ranking (redis w) !! i).
Proof.
  unfold r_zrange_desc. rewrite list_elem_of_fmap. split.
  - intros ([i' s] & -> & H). rewrite merge_sort_Permutation in H.
    apply elem_of_map_to_list in H. by eexists.
  - intros [s Hs]. exists (i, s). split; [done|].
    rewrite merge_sort_Permutation. by apply elem_of_map_to_list.
Qed.

Lemma top_ids_ranked w i :
  i ∈ top_ids w → is_Some (image_ranking (redis w) !! i).
Proof.
  intros H. apply r_zrange_desc_ranked.
  eapply elem_of_sublist; [exact H|apply sublist_take].
Qed.

(** X16. The most viewed list holds each public record whose identifier
    is among the first ten of the ranking exactly once, and nothing
    else: a private record in the first ten is left out and not
    replaced. *)
Theorem most_viewed_members w :
  ∃ mv, most_viewed_of w = Some mv ∧
    mv ≡ₚ public_top w ∧ NoDup mv.*1 ∧
    ∀ x, x ∈ mv ↔
      images w !! x.1 = Some x.2 ∧ private x.2 = false ∧ x.1 ∈ top_ids w.
Proof.
  rewrite most_viewed_of_unfold. unfold sort_by.
  destruct (most_viewed_keys w) as [keys Hkeys]. rewrite Hkeys. simpl.
  eexists. split; [done|].
  pose proof (length_mapM _ _ _ Hkeys) as Hlen.
  assert ((sort_decorated (zip keys (public_top w))).*2 ≡ₚ public_top w)
    as Hperm.
  { rewrite sort_decorated_Permutation, snd_zip by lia. done. }
  split; [done|]. split.
  - rewrite Hperm. eapply sublist_NoDup; [apply (NoDup_fst_map_to_list (images w))|].
    apply fmap_sublist, sublist_filter.
  - intros [i img]. rewrite Hperm. unfold public_top.
    rewrite list_elem_of_filter, elem_of_map_to_list. simpl. tauto.
Qed.

Lemma most_viewed_elem_of w mv x :
  most_viewed_of w = Some mv → x ∈ mv →
  images w !! x.1 = Some x.2 ∧ private x.2 = false ∧ x.1 ∈ top_ids w.
Proof.
  rewrite most_viewed_of_unfold. unfold sort_by.
  destruct (most_viewed_keys w) as [keys Hkeys]. rewrite Hkeys. simpl.
  intros [= <-] Hx.
  pose proof (length_mapM _ _ _ Hkeys) as Hlen.
  rewrite sort_decorated_Permutation, snd_zip in Hx by lia.
  destruct x as [i img]. unfold public_top in Hx.
  apply list_elem_of_filter in Hx as [[? ?] Hx].
  by apply elem_of_map_to_list in Hx.
Qed.

(** X17. An image without a score is never in the list, and neither is
    an identifier of the ranking whose record is gone. *)
Theorem most_viewed_only_ranked w mv x :
  most_viewed_of w = Some mv → x ∈ mv →
  is_Some (image_ranking (redis w) !! x.1) ∧ is_Some (images w !! x.1).
Proof.
  intros Hmv Hx. destruct (most_viewed_elem_of _ _ _ Hmv Hx) as (Hi & _ & Ht).
  split; [by apply top_ids_ranked|by eexists].
Qed.

(** ** Delete and what it leaves behind *)

(** X18. After a committed delete the image is in no most viewed list,
    while its score, the view counters and the stored files are still
    there. *)
Theorem delete_then_list fails request id w :
  delete_commits fails id w = true →
  ∃ w' mv,
    delete fails request id w =
      Ok (render "images/image/delete_success.html" NoContext) w' ∧
    most_viewed_of w' = Some mv ∧ (id ∉ mv.*1) ∧
    image_ranking (redis w') !! id = image_ranking (redis w) !! id ∧
    strings (redis w') = strings (redis w) ∧ media w' = media w.
Proof.
  intros Hc. rewrite delete_run, Hc.
  destruct (most_viewed_of_is_Some (deleted id w)) as [mv Hmv].
  exists (deleted id w), mv. split; [done|]. split; [done|].
  split; [|done].
  intros Hin. apply list_elem_of_fmap in Hin as (x & -> & Hx).
  destruct (most_viewed_elem_of _ _ _ Hmv Hx) as (Hi & _).
  simpl in Hi. by rewrite lookup_delete_eq in Hi.
Qed.

(** X19. Deleting the same image again changes nothing; the first delete
    keeps every other record and, for an unknown identifier, the whole
    world. *)
Theorem delete_twice request request' id w :
  ∃ w1,
    delete (λ _, false) request id w =
      Ok (render "images/image/delete_success.html" NoContext) w1 ∧
    delete (λ _, false) request' id w1 =
      Ok (render "images/image/delete_success.html" NoContext) w1 ∧
    (∀ i, i ≠ id → images w1 !! i = images w !! i) ∧
    (is_Some (images w !! id) →
       actions w1 = filter (λ a, target_id a ≠ id) (actions w)) ∧
    (images w !! id = None → w1 = w).
Proof.
  rewrite delete_run. eexists. split; [done|].
  rewrite delete_run. unfold delete_commits. simpl.
  destruct (images w !! id) as [img|] eqn:Hi; simpl.
  - rewrite lookup_delete_eq. simpl. split; [done|].
    split; [|split; [done|by intros ?]].
    intros i Hne. by rewrite lookup_delete_ne.
  - rewrite Hi. simpl. split; [done|]. split; [done|]. split; [|done].
    intros [? ?]; done.
Qed.

(** X20. [delete] looks at nothing in the request: sent by anyone, the
    owner or not, logged in or not, it removes an existing record. *)
Theorem delete_open request id img w :
  images w !! id = Some img →
  ∃ w',
    delete (λ _, false) request id w =
      Ok (render "images/image/delete_success.html" NoContext) w' ∧
    images w' !! id = None.
Proof.
  intros Hi. rewrite delete_run. unfold delete_commits. rewrite Hi. simpl.
  eexists. split; [done|]. simpl. apply lookup_delete_eq.
Qed.

Lemma most_viewed_only_ranked_witness :
  is_Some (image_ranking (redis Sample.world) !! 1) ∧
  is_Some (images Sample.world !! 1).
Proof.
  destruct (most_viewed_of_is_Some Sample.world) as [mv Hmv].
  apply (most_viewed_only_ranked Sample.world mv (1, Sample.cat) Hmv).
  revert Hmv. vm_compute. intros [= <-]. apply list_elem_of_here.
Defined.

Lemma delete_then_list_witness :
  ∃ w' mv,
    delete (λ _, false) (Sample.get 7 ∅) 1 Sample.world =
      Ok (render "images/image/delete_success.html" NoContext) w' ∧
    most_viewed_of w' = Some mv ∧ (1 ∉ mv.*1) ∧
    image_ranking (redis w') !! 1 = Some 5.
Proof.
  destruct (delete_then_list (λ _, false) (Sample.get 7 ∅) 1 Sample.world)
    as (w' & mv & Hrun & Hmv & Hnot & Hscore & _).
  - vm_compute. reflexivity.
  - exists w', mv. rewrite Hscore. repeat split; try assumption.
Defined.

Lemma delete_open_witness :
  ∃ w',
    delete (λ _, false) (mkRequest method_GET None ∅ ∅) 2 Sample.world =
      Ok (render "images/image/delete_success.html" NoContext) w' ∧
    images w' !! 2 = None.
Proof.
  apply (delete_open (mkRequest method_GET None ∅ ∅) 2 Sample.dog).
  reflexivity.
Defined.

(** ** The listing of one's own images *)

(** X21. A user who asks for the own listing always gets an answer, in
    the unchanged world: the empty fragment, or a page of which every
    row is a record of the table owned by that user. *)
Theorem user_images_list_own u request w :
  req_user request = Some u → u ∈ users w →
  ∃ r, user_images_list request u w = Ok r w ∧
    (r = HttpResponse "" 200 ∨
     ∃ pg, r = render "images/image/user_image_list.html"
                      (UserListContext "images" pg) ∧
       Forall (λ x, images w !! x.1 = Some x.2 ∧ user x.2 = u)
              (object_list pg)).
Proof.
  intros Hu Hin.
  unfold user_images_list, login_required, user_images_list_body,
    User_objects_get.
  rewrite Hu. monad_unfold. rewrite decide_True by done. monad_unfold.
  rewrite decide_True by done.
  set (p := mkPaginator _ 1000).
  rewrite (paginate_spec p) by done.
  assert (∀ n, Forall (λ x, images w !! x.1 = Some x.2 ∧ user x.2 = u)
                      (object_list (page_at p n))) as Hpage.
  { intros n. apply Forall_forall. intros [i img] Hx.
    apply page_at_elem_of in Hx. unfold p in Hx. simpl in Hx.
    apply list_elem_of_filter in Hx as [? Hx].
    by apply elem_of_map_to_list in Hx. }
  unfold paginated.
  destruct (Py.int _) as [n|].
  - case_decide.
    + eexists. split; [by destruct (Py.truthy _)|]. right. eauto.
    + destruct (Py.truthy (GET request !! "images_only")) eqn:Ht.
      * eexists. split; [done|]. by left.
      * eexists. split; [done|]. right. eauto.
  - eexists. split; [by destruct (Py.truthy _)|]. right. eauto.
Qed.

Lemma user_images_list_own_witness :
  ∃ r, user_images_list (Sample.get 2 ∅) 2 Sample.world = Ok r Sample.world.
Proof.
  destruct (user_images_list_own 2 (Sample.get 2 ∅) Sample.world)
    as (r & Hrun & _).
  - reflexivity.
  - apply (bool_decide_unpack _). vm_compute. exact I.
  - exists r. exact Hrun.
Defined.

(** ** Download *)

Section DownloadProperties.

Variable read_file : string → string.


End DownloadProperties.


(** * The handlers over any [int()]

    [image_list] and [image_like] hand a request parameter to [int()].
    Here they are once more, word for word, over an arbitrary reading
    of [int()] on strings, so that what is proved of them holds for
    Python's own. *)

Module AnyInt.

Section Handlers.

(** [int(s)] for a [str], whatever Python accepts there; [None] stands
    for its [ValueError]. *)
Variable int_str : string → option Z.

(** [int(v)] *)
Definition int (v : Py.value) : option Z :=
  match v with
  | Py.None_ => None
  | Py.Str s => int_str s
  | Py.Int z => Some z
  end.

Definition validate_number (p : Paginator) (v : Py.value) : Exc + Z :=
  match int v with
  | None => inl PageNotAnInteger
  | Some n =>
      if decide (n < 1) then inl EmptyPage
      else if decide (n > num_pages p) then inl EmptyPage
      else inr n
  end.

Definition page (p : Paginator) (v : Py.value) : Exc + Page :=
  match validate_number p v with
  | inl e => inl e
  | inr n =>
      let bottom := (n - 1) * per_page p in
      let top := bottom + per_page p in
      let top := if decide (top >= count p) then count p else top in
      inr (mkPage (slice (p_object_list p) bottom top) n)
  end.

Definition paginate (paginator : Paginator) (pg images_only : option string)
    : M (Response + Page) :=
  try_except catches_page
    (imgs ← lift (page paginator (Py.of_get pg)); mret (inr imgs))
    (λ e,
       match e with
       | PageNotAnInteger =>
           imgs ← lift (page paginator (Py.Int 1)); mret (inr imgs)
       | _ =>
           if Py.truthy images_only then mret (inl (HttpResponse "" 200))
           else
             imgs ← lift (page paginator (Py.Int (num_pages paginator)));
             mret (inr imgs)
       end).

Definition image_list_body (u : Z) (request : Request) : M Response :=
  w ← get_world;
  let imgs := map_to_list (images w) in
  let paginator := mkPaginator imgs 1000 in
  let pg := GET request !! "page" in
  let images_only := GET request !! "images_only" in
  most_viewed ← lift (from_option inr (inl ValueError) (most_viewed_of w));
  r ← paginate paginator pg images_only;
  match r with
  | inl response => mret response
  | inr imgs =>
      if Py.truthy images_only then
        mret (render "images/image/list_all_images.html"
                     (ListContext "images" imgs most_viewed))
      else
        mret (render "images/image/list.html"
                     (ListContext "images" imgs most_viewed))
  end.

Definition image_list : Request → M Response :=
  login_required image_list_body.

Definition Image_objects_get (v : Py.value) : M (Z * Image) :=
  match int v with
  | None => raise ValueError
  | Some pk =>
      w ← get_world;
      match images w !! pk with
      | Some img => mret (pk, img)
      | None => raise (DoesNotExist "Image")
      end
  end.

Definition image_like_body (u : Z) (request : Request) : M Response :=
  let image_id := POST request !! "id" in
  let action := POST request !! "action" in
  if Py.truthy image_id && Py.truthy action then
    try_except catches_Image_DoesNotExist
      (img ← Image_objects_get (Py.of_get image_id);
       (if decide (action = Some "like") then
          users_like_add img.1 u ;;
          create_action u "лайкнул" img.1
        else
          users_like_remove img.1 u) ;;
       mret (JsonResponse "ok"))
      (λ _, mret (JsonResponse "error"))
  else mret (JsonResponse "error").

Definition image_like : Request → M Response :=
  login_required (λ u, require_POST (image_like_body u)).

(** What the pagination block comes to. *)
Definition paginated (p : Paginator) (pg images_only : option string)
    : Response + Page :=
  match int (Py.of_get pg) with
  | None => inr (page_at p 1)
  | Some n =>
      if decide (1 ≤ n ≤ num_pages p) then inr (page_at p n)
      else if Py.truthy images_only then inl (HttpResponse "" 200)
      else inr (page_at p (num_pages p))
  end.

Lemma page_any_int p v :
  page p v =
    match int v with
    | None => inl PageNotAnInteger
    | Some n =>
        if decide (1 ≤ n ≤ num_pages p) then inr (page_at p n)
        else inl EmptyPage
    end.
Proof.
  unfold page, validate_number. destruct (int v) as [n|]; [|done].
  unfold page_at. repeat case_decide; try done; lia.
Qed.

Lemma paginate_any_int p pg images_only w :
  0 < per_page p →
  paginate p pg images_only w = Ok (paginated p pg images_only) w.
Proof.
  intros Hp. pose proof (num_pages_ge_1 p Hp).
  unfold paginate, paginated, try_except. monad_unfold.
  rewrite !page_any_int. simpl.
  destruct (int (Py.of_get pg)) as [n|]; simpl.
  - case_decide; simpl; [done|].
    destruct (Py.truthy images_only); [done|].
    by rewrite decide_True by lia.
  - by rewrite decide_True by lia.
Qed.

Lemma image_list_any_int u request w most_viewed :
  req_user request = Some u →
  most_viewed_of w = Some most_viewed →
  image_list request w =
    Ok (match paginated (mkPaginator (map_to_list (images w)) 1000)
                        (GET request !! "page")
                        (GET request !! "images_only") with
        | inl response => response
        | inr imgs =>
            render (list_template (GET request !! "images_only"))
                   (ListContext "images" imgs most_viewed)
        end) w.
Proof.
  intros Hu Hmv. unfold image_list, login_required. rewrite Hu.
  unfold image_list_body, list_template. monad_unfold. rewrite Hmv. simpl.
  rewrite paginate_any_int by done.
  destruct (paginated _ _ _); [done|]. by destruct (Py.truthy _).
Qed.

(** C7. Whatever strings [int()] takes as numerals (given that it reads
    ["1"] as 1): a [page] parameter that [int()] rejects, or none at
    all, gets page 1, the very response of the same request with
    [page=1]. A number above the last page gets, in full mode, the last
    page (the response of the same request with any spelling of the
    last page number) and, in fragment mode, the empty response. *)
Theorem image_list_page_fallback u request w :
  req_user request = Some u →
  int_str "1" = Some 1 →
  let paginator := mkPaginator (map_to_list (images w)) 1000 in
  let pg := GET request !! "page" in
  let images_only := GET request !! "images_only" in
  ∃ most_viewed, most_viewed_of w = Some most_viewed ∧
    (int (Py.of_get pg) = None →
       image_list request w = image_list (with_page "1" request) w ∧
       image_list request w =
         Ok (render (list_template images_only)
                    (ListContext "images" (page_at paginator 1) most_viewed))
            w) ∧
    (∀ n, int (Py.of_get pg) = Some n → n > num_pages paginator →
       if Py.truthy images_only then
         image_list request w = Ok (HttpResponse "" 200) w
       else
         image_list request w =
           Ok (render "images/image/list.html"
                 (ListContext "images"
                    (page_at paginator (num_pages paginator)) most_viewed))
              w ∧
         ∀ s, int_str s = Some (num_pages paginator) →
              image_list request w = image_list (with_page s request) w).
Proof.
  intros Hu Hone paginator pg images_only.
  destruct (most_viewed_of_is_Some w) as [mv Hmv]. exists mv. split; [done|].
  assert (1 ≤ num_pages paginator) as Hn by (by apply num_pages_ge_1).
  assert (∀ s, GET (with_page s request) !! "images_only" = images_only)
    as Honly by (intros s; unfold with_page; simpl; by rewrite lookup_insert_ne).
  assert (∀ s, GET (with_page s request) !! "page" = Some s)
    as Hpage by (intros s; unfold with_page; simpl; by rewrite lookup_insert_eq).
  split.
  - intros Hint.
    rewrite !(image_list_any_int u _ w mv) by done.
    rewrite Honly, Hpage. fold paginator pg images_only.
    unfold paginated. rewrite Hint. simpl. rewrite Hone.
    by rewrite decide_True by lia.
  - intros n Hint Hgt.
    assert (paginated paginator pg images_only =
            if Py.truthy images_only then inl (HttpResponse "" 200)
            else inr (page_at paginator (num_pages paginator))) as Hpg.
    { unfold paginated. rewrite Hint. by rewrite decide_False by lia. }
    rewrite (image_list_any_int u _ w mv) by done.
    fold paginator pg images_only. rewrite Hpg. unfold list_template.
    destruct (Py.truthy images_only) eqn:Ht; [done|]. split; [done|].
    intros s Hs. rewrite (image_list_any_int u _ w mv) by done.
    rewrite Honly, Hpage. fold paginator images_only.
    unfold paginated, list_template. simpl. rewrite Hs, Ht. cbv beta iota.
    by rewrite decide_True by lia.
Qed.

(** X10. A non-empty id that [int()] rejects is not turned into status
    [error]: the lookup raises [ValueError], which the [except] clause
    for [Image.DoesNotExist] does not catch; the world is unchanged. *)
Theorem image_like_bad_id_raises u request s w :
  req_user request = Some u → method request = method_POST →
  POST request !! "id" = Some s → s ≠ "" → int_str s = None →
  Py.truthy (POST request !! "action") = true →
  image_like request w = Raise ValueError w.
Proof.
  intros Hu Hm Hs Hne Hint Ha.
  unfold image_like, login_required, require_POST, image_like_body.
  rewrite Hu, Hm, Hs, Ha. destruct s as [|c s]; [done|]. simpl.
  unfold try_except, Image_objects_get. simpl. by rewrite Hint.
Qed.

End Handlers.

End AnyInt.

(** With the ASCII reading of [int()] these are the handlers above. *)
Lemma image_list_ascii : AnyInt.image_list Py.int_of_string = image_list.
Proof. reflexivity. Qed.

Lemma image_like_ascii : AnyInt.image_like Py.int_of_string = image_like.
Proof. reflexivity. Qed.

Lemma image_list_page_fallback_witness :
  image_list (Sample.get 1 {[ "page" := "abc" ]}) Sample.world =
    image_list (with_page "1" (Sample.get 1 {[ "page" := "abc" ]}))
               Sample.world ∧
  image_list (Sample.get 1 {[ "page" := "9999"; "images_only" := "1" ]})
             Sample.world = Ok (HttpResponse "" 200) Sample.world ∧
  image_list (Sample.get 1 {[ "page" := "9999" ]}) Sample.world =
    image_list (with_page "1" (Sample.get 1 {[ "page" := "9999" ]}))
               Sample.world.
Proof.
  split; [|split].
  - destruct (AnyInt.image_list_page_fallback Py.int_of_string 1
                (Sample.get 1 {[ "page" := "abc" ]}) Sample.world)
      as (mv & _ & H & _); [reflexivity|reflexivity|].
    apply H. reflexivity.
  - destruct (AnyInt.image_list_page_fallback Py.int_of_string 1
                (Sample.get 1 {[ "page" := "9999"; "images_only" := "1" ]})
                Sample.world)
      as (mv & _ & _ & H); [reflexivity|reflexivity|].
    apply (H 9999); [reflexivity|]. vm_compute. reflexivity.
  - destruct (AnyInt.image_list_page_fallback Py.int_of_string 1
                (Sample.get 1 {[ "page" := "9999" ]}) Sample.world)
      as (mv & _ & _ & H); [reflexivity|reflexivity|].
    apply (H 9999); [reflexivity|vm_compute; reflexivity|].
    vm_compute. reflexivity.
Defined.

Lemma image_like_bad_id_raises_witness :
  image_like (Sample.post 7 {[ "id" := "one"; "action" := "like" ]})
             Sample.world = Raise ValueError Sample.world.
Proof.
  apply (AnyInt.image_like_bad_id_raises Py.int_of_string 7 _ "one");
    try reflexivity; discriminate.
Defined.
